(** * next_crud: the to-do list component, the dashboard loader and the
      authentication callback, embedded from the TypeScript sources

    - [src/components/TodoList.tsx]   -> [Module TodoList]
    - [src/app/dashboard/page.tsx]    -> [Module Dashboard]
    - [src/app/auth/callback/route.ts] -> [Module Callback]

    The Record Store and the Session Provider are external collaborators:
    their answers are inputs (an environment of oracles), and every call
    made to them is recorded in a trace of effects. *)

From Stdlib Require Import String Ascii.
From stdpp Require Import base numbers list option.

Local Open Scope N_scope.

(** ** JavaScript strings

    A JavaScript string is a sequence of UTF-16 code units. *)

Module JS.

Abbreviation jsstring := (list N).

(** A literal of the source, all of whose characters are ASCII. *)
Definition lit (s : string) : jsstring :=
  List.map N_of_ascii (list_ascii_of_string s).
Arguments lit : simpl never.

(** ECMAScript [WhiteSpace] and [LineTerminator] code points, the
    characters [String.prototype.trim] strips. *)
Definition isWhiteSpace (c : N) : bool :=
  (c =? 0x9) || (c =? 0xA) || (c =? 0xB) || (c =? 0xC) || (c =? 0xD)
  || (c =? 0x20) || (c =? 0xA0) || (c =? 0x1680)
  || ((0x2000 <=? c) && (c <=? 0x200A))
  || (c =? 0x2028) || (c =? 0x2029) || (c =? 0x202F) || (c =? 0x205F)
  || (c =? 0x3000) || (c =? 0xFEFF).

Fixpoint trimStart (s : jsstring) : jsstring :=
  match s with
  | [] => []
  | c :: rest => if isWhiteSpace c then trimStart rest else s
  end.

Definition trimEnd (s : jsstring) : jsstring :=
  rev (trimStart (rev s)).

(** [s.trim()] *)
Definition trim (s : jsstring) : jsstring := trimEnd (trimStart s).

(** ToBoolean on a string: only the empty string is falsy. *)
Definition truthy (s : jsstring) : bool :=
  match s with
  | [] => false
  | _ :: _ => true
  end.

(** [s || null] *)
Definition or_null (s : jsstring) : option jsstring :=
  if truthy s then Some s else None.

(** [o || ''] for [o : string | null] *)
Definition or_empty (o : option jsstring) : jsstring :=
  match o with
  | Some s => if truthy s then s else []
  | None => []
  end.

(** [a === b] on strings *)
Definition str_eq (a b : jsstring) : bool := bool_decide (a = b).

(** [a === b] for [a : string | null] and [b : string] *)
Definition nullable_eq (a : option jsstring) (b : jsstring) : bool :=
  match a with
  | Some x => str_eq x b
  | None => false
  end.

End JS.

(** ** The client library's types *)

Module Supabase.
Import JS.

Record PostgrestError : Type := mkError {
  message : jsstring;
  code : jsstring
}.

(** [PostgrestSingleResponse<T>] and [PostgrestResponse<T>]: a
    discriminated union, [{ data: T, error: null }] on success and
    [{ data: null, error: PostgrestError }] on failure. *)
Inductive Response (T : Type) : Type :=
| Success (data : T)
| Failure (error : PostgrestError).
Arguments Success {T} data.
Arguments Failure {T} error.

(** Destructuring [const { data, error } = ...]. *)
Definition data_of {T} (r : Response T) : option T :=
  match r with
  | Success d => Some d
  | Failure _ => None
  end.

Definition error_of {T} (r : Response T) : option PostgrestError :=
  match r with
  | Success _ => None
  | Failure e => Some e
  end.

Record User : Type := mkUser {
  user_id : jsstring;
  email : option jsstring
}.

End Supabase.

(** ** The list component, [src/components/TodoList.tsx] *)

Module TodoList.
Import JS Supabase.

(** [interface Todo].  The record lives in a module of its own so that
    the cells [title] and [description] of the component keep the names
    they have in the source. *)
Module Todo.
Record Todo : Type := mk {
  id : jsstring;
  title : jsstring;
  description : option jsstring;
  completed : bool;
  created_at : jsstring;
  updated_at : jsstring
}.
End Todo.
Abbreviation Todo := Todo.Todo.

(** The object passed to [.insert([...])]. *)
Record InsertRow : Type := mkInsertRow {
  ins_title : jsstring;
  ins_description : option jsstring;
  ins_user_id : jsstring;
  ins_completed : bool
}.

(** The object passed to [.update({...})]; a column that the object
    does not mention is [None]. *)
Record UpdateFields : Type := mkUpdateFields {
  upd_title : option jsstring;
  upd_description : option (option jsstring);
  upd_completed : option bool;
  upd_updated_at : option jsstring
}.

(** The seven [useState] cells of the component. *)
Record State : Type := mkState {
  todos : list Todo;
  title : jsstring;
  description : jsstring;
  editingId : option jsstring;
  editTitle : jsstring;
  editDescription : jsstring;
  loading : bool
}.

(** [useState] initial values. *)
Definition init (initialTodos : list Todo) : State :=
  {| todos := initialTodos; title := []; description := [];
     editingId := None; editTitle := []; editDescription := [];
     loading := false |}.

(** What a handler does to the outside world, in order. *)
Inductive Effect : Type :=
| PreventDefault
| StoreInsert (row : InsertRow)
| StoreUpdate (target : jsstring) (fields : UpdateFields)
| StoreDelete (target : jsstring)
| Confirm (question : jsstring)
| ConsoleError (label : jsstring) (error : PostgrestError)
| Alert (text : jsstring).

(** The answers of the outside world. *)
Record Env : Type := mkEnv {
  confirm_answer : jsstring -> bool;
  insert_answer : InsertRow -> Response Todo;
  update_answer : jsstring -> UpdateFields -> Response Todo;
  delete_answer : jsstring -> option PostgrestError;
  now : jsstring                 (* [new Date().toISOString()] *)
}.

(** *** The handler monad: state cells, a trace, and early [return] *)

Inductive Flow (A : Type) : Type :=
| Next (a : A)
| Returned.
Arguments Next {A} a.
Arguments Returned {A}.

Definition Handler (A : Type) : Type :=
  State -> list Effect -> Flow A * State * list Effect.

Definition pure {A} (a : A) : Handler A :=
  fun s tr => (Next a, s, tr).

Definition bind {A B} (m : Handler A) (k : A -> Handler B) : Handler B :=
  fun s tr =>
    match m s tr with
    | (Next a, s', tr') => k a s' tr'
    | (Returned, s', tr') => (Returned, s', tr')
    end.

(** The statement [return] of an [async] handler. *)
Definition return_ {A} : Handler A :=
  fun s tr => (Returned, s, tr).

Definition perform (e : Effect) : Handler unit :=
  fun s tr => (Next tt, s, tr ++ [e]).

Definition modify (f : State -> State) : Handler unit :=
  fun s tr => (Next tt, f s, tr).

Declare Scope handler_scope.
Delimit Scope handler_scope with handler.
Notation "x <- m ;; k" := (bind m (fun x => k))
  (at level 100, m at next level, right associativity,
   format "'[v' x  <-  m  ;;  '/' k ']'") : handler_scope.
Notation "m ;; k" := (bind m (fun _ => k))
  (at level 100, right associativity,
   format "'[v' m  ;;  '/' k ']'") : handler_scope.
Notation "'when' b 'then' m" := (if b then m else pure tt)
  (at level 99, only parsing) : handler_scope.

(** The setters returned by [useState]. *)
Definition setTodos (v : list Todo) : Handler unit :=
  modify (fun s => {| todos := v; title := title s;
    description := description s; editingId := editingId s;
    editTitle := editTitle s; editDescription := editDescription s;
    loading := loading s |}).

Definition setTitle (v : jsstring) : Handler unit :=
  modify (fun s => {| todos := todos s; title := v;
    description := description s; editingId := editingId s;
    editTitle := editTitle s; editDescription := editDescription s;
    loading := loading s |}).

Definition setDescription (v : jsstring) : Handler unit :=
  modify (fun s => {| todos := todos s; title := title s;
    description := v; editingId := editingId s;
    editTitle := editTitle s; editDescription := editDescription s;
    loading := loading s |}).

Definition setEditingId (v : option jsstring) : Handler unit :=
  modify (fun s => {| todos := todos s; title := title s;
    description := description s; editingId := v;
    editTitle := editTitle s; editDescription := editDescription s;
    loading := loading s |}).

Definition setEditTitle (v : jsstring) : Handler unit :=
  modify (fun s => {| todos := todos s; title := title s;
    description := description s; editingId := editingId s;
    editTitle := v; editDescription := editDescription s;
    loading := loading s |}).

Definition setEditDescription (v : jsstring) : Handler unit :=
  modify (fun s => {| todos := todos s; title := title s;
    description := description s; editingId := editingId s;
    editTitle := editTitle s; editDescription := v;
    loading := loading s |}).

Definition setLoading (v : bool) : Handler unit :=
  modify (fun s => {| todos := todos s; title := title s;
    description := description s; editingId := editingId s;
    editTitle := editTitle s; editDescription := editDescription s;
    loading := v |}).

Section Handlers.
Variable env : Env.
Variable user : User.

(** [await supabase.from('todos').insert([row]).select().single()] *)
Definition store_insert (row : InsertRow) : Handler (Response Todo) :=
  fun s tr => (Next (insert_answer env row), s, tr ++ [StoreInsert row]).

(** [await supabase.from('todos').update(fields).eq('id', i).select().single()] *)
Definition store_update (i : jsstring) (fields : UpdateFields)
  : Handler (Response Todo) :=
  fun s tr =>
    (Next (update_answer env i fields), s, tr ++ [StoreUpdate i fields]).

(** [await supabase.from('todos').delete().eq('id', i)] *)
Definition store_delete (i : jsstring) : Handler (option PostgrestError) :=
  fun s tr => (Next (delete_answer env i), s, tr ++ [StoreDelete i]).

(** [confirm(question)] *)
Definition confirm (question : jsstring) : Handler bool :=
  fun s tr =>
    (Next (confirm_answer env question), s, tr ++ [Confirm question]).

Local Open Scope handler_scope.

(** Every handler is a closure over the cells of the render that
    created it: [c] is that snapshot, read by the body; the setters
    write the live cells. *)

Definition handleCreate (c : State) : Handler unit :=
  perform PreventDefault ;;
  (when negb (truthy (trim (title c))) then return_) ;;
  setLoading true ;;
  r <- store_insert
         {| ins_title := trim (title c);
            ins_description := or_null (trim (description c));
            ins_user_id := user_id user;
            ins_completed := false |} ;;
  setLoading false ;;
  match r with
  | Failure error =>
      perform (ConsoleError (lit "Error creating todo:") error) ;;
      perform (Alert (lit "Error creating todo: " ++ message error)) ;;
      return_
  | Success data =>
      setTodos (data :: todos c) ;;
      setTitle [] ;;
      setDescription []
  end.

Definition handleUpdate (c : State) (i : jsstring) : Handler unit :=
  (when negb (truthy (trim (editTitle c))) then return_) ;;
  setLoading true ;;
  r <- store_update i
         {| upd_title := Some (trim (editTitle c));
            upd_description := Some (or_null (trim (editDescription c)));
            upd_completed := None;
            upd_updated_at := Some (now env) |} ;;
  setLoading false ;;
  match r with
  | Failure error =>
      perform (ConsoleError (lit "Error updating todo:") error) ;;
      perform (Alert (lit "Error updating todo: " ++ message error)) ;;
      return_
  | Success data =>
      setTodos
        (List.map (fun todo => if str_eq (Todo.id todo) i then data else todo)
                  (todos c)) ;;
      setEditingId None ;;
      setEditTitle [] ;;
      setEditDescription []
  end.

Definition handleDelete (c : State) (i : jsstring) : Handler unit :=
  ok <- confirm (lit "Are you sure you want to delete this todo?") ;;
  (when negb ok then return_) ;;
  setLoading true ;;
  error <- store_delete i ;;
  setLoading false ;;
  match error with
  | Some error =>
      perform (ConsoleError (lit "Error deleting todo:") error) ;;
      perform (Alert (lit "Error deleting todo: " ++ message error)) ;;
      return_
  | None =>
      setTodos
        (List.filter (fun todo => negb (str_eq (Todo.id todo) i)) (todos c))
  end.

Definition handleToggleComplete (c : State) (i : jsstring)
    (completed : bool) : Handler unit :=
  setLoading true ;;
  r <- store_update i
         {| upd_title := None;
            upd_description := None;
            upd_completed := Some (negb completed);
            upd_updated_at := Some (now env) |} ;;
  setLoading false ;;
  match r with
  | Failure error =>
      perform (ConsoleError (lit "Error toggling todo:") error) ;;
      return_
  | Success data =>
      setTodos
        (List.map (fun todo => if str_eq (Todo.id todo) i then data else todo)
                  (todos c))
  end.

Definition startEdit (todo : Todo) : Handler unit :=
  setEditingId (Some (Todo.id todo)) ;;
  setEditTitle (Todo.title todo) ;;
  setEditDescription (or_empty (Todo.description todo)).

Definition cancelEdit : Handler unit :=
  setEditingId None ;;
  setEditTitle [] ;;
  setEditDescription [].

(** Running a handler created by the render of [s]: the cells it
    leaves behind and what it did, in order.  A handler runs to its end
    in one step: while it awaits the store the busy flag is up and every
    control is disabled, so no other handler can start in between. *)
Definition invoke (h : State -> Handler unit) (s : State)
  : State * list Effect :=
  let '(_, s', tr) := h s s [] in (s', tr).

End Handlers.

(** *** Named forms used to state the properties *)

Definition ids (l : list Todo) : list jsstring := List.map Todo.id l.

(** The argument of [setTodos] in [handleUpdate] and
    [handleToggleComplete],
    [todos.map((todo) => (todo.id === i ? data : todo))] *)
Definition replace_by_id (i : jsstring) (data : Todo) (l : list Todo)
  : list Todo :=
  List.map (fun todo => if str_eq (Todo.id todo) i then data else todo) l.

(** The argument of [setTodos] in [handleDelete],
    [todos.filter((todo) => todo.id !== i)] *)
Definition remove_by_id (i : jsstring) (l : list Todo) : list Todo :=
  List.filter (fun todo => negb (str_eq (Todo.id todo) i)) l.

(** Modelled from the spec: the Record Store is an external service, and
    its [update(id, fields) -> record] returns the affected record, that
    is the stored row with the columns of [fields] overwritten. *)
Definition store_applies (fields : UpdateFields) (row : Todo) : Todo :=
  {| Todo.id := Todo.id row;
     Todo.title := default (Todo.title row) (upd_title fields);
     Todo.description :=
       default (Todo.description row) (upd_description fields);
     Todo.completed := default (Todo.completed row) (upd_completed fields);
     Todo.created_at := Todo.created_at row;
     Todo.updated_at :=
       default (Todo.updated_at row) (upd_updated_at fields) |}.

(** The objects the two updating handlers send. *)
Definition edit_fields (env : Env) (c : State) : UpdateFields :=
  {| upd_title := Some (trim (editTitle c));
     upd_description := Some (or_null (trim (editDescription c)));
     upd_completed := None;
     upd_updated_at := Some (now env) |}.

Definition toggle_fields (env : Env) (completed : bool) : UpdateFields :=
  {| upd_title := None;
     upd_description := None;
     upd_completed := Some (negb completed);
     upd_updated_at := Some (now env) |}.

Definition create_row (user : User) (c : State) : InsertRow :=
  {| ins_title := trim (title c);
     ins_description := or_null (trim (description c));
     ins_user_id := user_id user;
     ins_completed := false |}.

(** The cells with the busy flag cleared, as [setLoading(false)] leaves
    them. *)
Definition idle (s : State) : State :=
  {| todos := todos s; title := title s; description := description s;
     editingId := editingId s; editTitle := editTitle s;
     editDescription := editDescription s; loading := false |}.

(** The edit state is cleared: no editing target, empty edit fields. *)
Definition edit_cleared (s : State) : Prop :=
  editingId s = None /\ editTitle s = [] /\ editDescription s = [].

(** The question [handleDelete] asks. *)
Definition delete_question : jsstring :=
  lit "Are you sure you want to delete this todo?".

(** *** The rendered controls and their wiring

    The JSX of the component, reduced to the controls that can call a
    handler: which callback each one is wired to, with which arguments,
    and whether it is [disabled]. *)

Inductive Callback : Type :=
| Submit_handleCreate                      (* the form's submit button *)
| Change_setTitle
| Change_setDescription
| Change_setEditTitle
| Change_setEditDescription
| Click_handleUpdate (i : jsstring)
| Click_cancelEdit
| Change_handleToggleComplete (i : jsstring) (completed : bool)
| Click_startEdit (todo : Todo)
| Click_handleDelete (i : jsstring).

Record Control : Type := mkControl {
  wired : Callback;
  disabled : bool
}.

(** One element of [todos.map((todo) => ...)]. *)
Definition render_todo (s : State) (todo : Todo) : list Control :=
  if nullable_eq (editingId s) (Todo.id todo) then
    [ mkControl Change_setEditTitle (loading s);
      mkControl Change_setEditDescription (loading s);
      mkControl (Click_handleUpdate (Todo.id todo)) (loading s);
      mkControl Click_cancelEdit (loading s) ]
  else
    [ mkControl (Change_handleToggleComplete (Todo.id todo)
                                             (Todo.completed todo))
                (loading s);
      mkControl (Click_startEdit todo) (loading s);
      mkControl (Click_handleDelete (Todo.id todo)) (loading s) ].

Definition render (s : State) : list Control :=
  [ mkControl Change_setTitle (loading s);
    mkControl Change_setDescription (loading s);
    mkControl Submit_handleCreate (loading s) ]
  ++ (if (length (todos s) =? 0)%nat then []
      else List.flat_map (render_todo s) (todos s)).

(** The user can trigger [cb] in the render of [s]. *)
Definition offered (s : State) (cb : Callback) : Prop :=
  In (mkControl cb false) (render s).

(** What triggering [cb] runs; [value] is [e.target.value] for the
    text inputs. *)
Definition fire (env : Env) (user : User) (cb : Callback)
    (value : jsstring) (s : State) : State * list Effect :=
  match cb with
  | Submit_handleCreate => invoke (handleCreate env user) s
  | Change_setTitle => invoke (fun _ => setTitle value) s
  | Change_setDescription => invoke (fun _ => setDescription value) s
  | Change_setEditTitle => invoke (fun _ => setEditTitle value) s
  | Change_setEditDescription =>
      invoke (fun _ => setEditDescription value) s
  | Click_handleUpdate i => invoke (fun c => handleUpdate env c i) s
  | Click_cancelEdit => invoke (fun _ => cancelEdit) s
  | Change_handleToggleComplete i completed =>
      invoke (fun c => handleToggleComplete env c i completed) s
  | Click_startEdit todo => invoke (fun _ => startEdit todo) s
  | Click_handleDelete i => invoke (fun c => handleDelete env c i) s
  end.

(** A call of the Record Store. *)
Definition is_store_call (e : Effect) : bool :=
  match e with
  | StoreInsert _ | StoreUpdate _ _ | StoreDelete _ => true
  | _ => false
  end.

Definition is_alert (e : Effect) : bool :=
  match e with
  | Alert _ => true
  | _ => false
  end.

(** *** The component over time *)




(** The store answers an update with a record of the id it was asked
    for. *)
Definition keeps_id (env : Env) : Prop :=
  forall i fields data,
    update_answer env i fields = Success data -> Todo.id data = i.

End TodoList.

(** ** The dashboard loader, [src/app/dashboard/page.tsx] *)

Module Dashboard.
Import JS Supabase.

(** [.from(t).select(cols).eq(col, v).order(by, { ascending })] *)
Record Query : Type := mkQuery {
  from : jsstring;
  columns : jsstring;
  eq_column : jsstring;
  eq_value : jsstring;
  order_by : jsstring;
  ascending : bool
}.

Inductive Effect : Type :=
| CreateClient
| GetUser
| Redirect (path : jsstring)
| StoreSelect (q : Query)
| ConsoleError (label : jsstring) (error : PostgrestError).

Record Env : Type := mkEnv {
  getUser_answer : option User;
  select_answer : Query -> Response (list TodoList.Todo)
}.

(** The props of [<TodoList initialTodos=... user=... />]. *)
Record TodoListProps : Type := mkProps {
  initialTodos : list TodoList.Todo;
  user : User
}.

(** The returned element: the heading, the greeting, the sign-out form
    and the list component. *)
Record Page : Type := mkPage {
  heading : jsstring;
  welcome : option jsstring;              (* [user.email] *)
  signout_action : jsstring;
  signout_method : jsstring;
  list_component : TodoListProps
}.

(** [redirect] of [next/navigation] throws: the request ends there. *)
Inductive Outcome (A : Type) : Type :=
| Value (a : A)
| Redirected (path : jsstring).
Arguments Value {A} a.
Arguments Redirected {A} path.

Definition Loader (A : Type) : Type :=
  list Effect -> Outcome A * list Effect.

Definition pure {A} (a : A) : Loader A := fun tr => (Value a, tr).

Definition bind {A B} (m : Loader A) (k : A -> Loader B) : Loader B :=
  fun tr =>
    match m tr with
    | (Value a, tr') => k a tr'
    | (Redirected p, tr') => (Redirected p, tr')
    end.

Definition perform (e : Effect) : Loader unit :=
  fun tr => (Value tt, tr ++ [e]).

Definition redirect {A} (path : jsstring) : Loader A :=
  fun tr => (Redirected path, tr ++ [Redirect path]).

Declare Scope loader_scope.
Notation "x <- m ;; k" := (bind m (fun x => k))
  (at level 100, m at next level, right associativity) : loader_scope.
Notation "m ;; k" := (bind m (fun _ => k))
  (at level 100, right associativity) : loader_scope.

Section Loader.
Variable env : Env.

Definition auth_getUser : Loader (option User) :=
  fun tr => (Value (getUser_answer env), tr ++ [GetUser]).

Definition store_select (q : Query)
  : Loader (Response (list TodoList.Todo)) :=
  fun tr => (Value (select_answer env q), tr ++ [StoreSelect q]).

Local Open Scope loader_scope.

Definition DashboardPage : Loader Page :=
  perform CreateClient ;;
  u <- auth_getUser ;;
  user <- match u with
          | None => redirect (lit "/login")
          | Some user => pure user
          end ;;
  r <- store_select
         {| from := lit "todos"; columns := lit "*";
            eq_column := lit "user_id"; eq_value := user_id user;
            order_by := lit "created_at"; ascending := false |} ;;
  let todos := data_of r in
  let error := error_of r in
  match error with
  | Some error => perform (ConsoleError (lit "Error fetching todos:") error)
  | None => pure tt
  end ;;
  pure {| heading := lit "Dashboard";
          welcome := email user;
          signout_action := lit "/auth/signout";
          signout_method := lit "post";
          list_component :=
            {| initialTodos := match todos with
                               | Some rows => rows
                               | None => []
                               end;
               user := user |} |}.

Definition run : Outcome Page * list Effect := DashboardPage [].

End Loader.

(** The query the loader sends for the user [u]. *)
Definition todos_of (u : User) : Query :=
  {| from := lit "todos"; columns := lit "*";
     eq_column := lit "user_id"; eq_value := user_id u;
     order_by := lit "created_at"; ascending := false |}.

Definition is_store_query (e : Effect) : bool :=
  match e with
  | StoreSelect _ => true
  | _ => false
  end.

End Dashboard.

(** ** The authentication callback, [src/app/auth/callback/route.ts] *)

Module Callback.
Import JS.

(** [new URL(request.url)]: the origin and the query parameters, in the
    order in which the query string has them. *)
Record Request : Type := mkRequest {
  origin : jsstring;
  searchParams : list (jsstring * jsstring)
}.

(** [searchParams.get(name)]: the first value of [name], or [null]. *)
Fixpoint get (params : list (jsstring * jsstring)) (name : jsstring)
  : option jsstring :=
  match params with
  | [] => None
  | (k, v) :: rest => if str_eq k name then Some v else get rest name
  end.

Inductive Effect : Type :=
| CreateClient
| ExchangeCodeForSession (code : jsstring).

(** What [exchangeCodeForSession] resolves to. *)
Inductive Exchange : Type :=
| Session
| AuthError.

Inductive NextResponse : Type :=
| redirect (url : jsstring).

Definition GET (exchange_answer : jsstring -> Exchange) (request : Request)
  : NextResponse * list Effect :=
  let requestUrl := request in
  let code := get (searchParams requestUrl) (lit "code") in
  let type := get (searchParams requestUrl) (lit "type") in
  let origin := origin requestUrl in
  let tr :=
    match code with                       (* [if (code)] *)
    | Some c =>
        if truthy c then
          let _ := exchange_answer c in     (* awaited, result dropped *)
          [CreateClient; ExchangeCodeForSession c]
        else []
    | None => []
    end in
  if nullable_eq type (lit "recovery") then
    (redirect (origin ++ lit "/reset-password"), tr)
  else
    (redirect (origin ++ lit "/dashboard"), tr).

Definition exchange_attempted (tr : list Effect) : bool :=
  existsb (fun e => match e with
                    | ExchangeCodeForSession _ => true
                    | CreateClient => false
                    end) tr.

End Callback.

(** ** Sample data: a store with two rows, a store that refuses
      everything, and a few states of the component *)

Module Samples.
Import JS Supabase TodoList.

Definition stamp0 : jsstring := lit "2024-05-01T10:00:00.000Z".
Definition stamp1 : jsstring := lit "2024-05-02T08:30:00.000Z".

Definition todoA : Todo :=
  {| Todo.id := lit "1"; Todo.title := lit "A"; Todo.description := None;
     Todo.completed := false;
     Todo.created_at := stamp0; Todo.updated_at := stamp0 |}.

Definition todoB : Todo :=
  {| Todo.id := lit "2"; Todo.title := lit "B";
     Todo.description := Some (lit "second");
     Todo.completed := true;
     Todo.created_at := stamp0; Todo.updated_at := stamp0 |}.

Definition alice : User :=
  {| user_id := lit "u-1"; email := Some (lit "alice@example.org") |}.

Definition no_rows : PostgrestError :=
  {| message := lit "JSON object requested, multiple (or no) rows returned";
     code := lit "PGRST116" |}.

Definition denied : PostgrestError :=
  {| message := lit "permission denied for table todos";
     code := lit "42501" |}.

(** A store holding [rows] that honours every request; a new row gets the
    id ["3"] and the clock's time. *)
Definition serving (rows : list Todo) (confirmed : bool) : Env :=
  {| confirm_answer := fun _ => confirmed;
     insert_answer := fun row =>
       Success {| Todo.id := lit "3";
                  Todo.title := ins_title row;
                  Todo.description := ins_description row;
                  Todo.completed := ins_completed row;
                  Todo.created_at := stamp1;
                  Todo.updated_at := stamp1 |};
     update_answer := fun i fields =>
       match List.find (fun r => str_eq (Todo.id r) i) rows with
       | Some r => Success (store_applies fields r)
       | None => Failure no_rows
       end;
     delete_answer := fun _ => None;
     now := stamp1 |}.

(** A store that refuses every request. *)
Definition refusing (confirmed : bool) : Env :=
  {| confirm_answer := fun _ => confirmed;
     insert_answer := fun _ => Failure denied;
     update_answer := fun _ _ => Failure denied;
     delete_answer := fun _ => Some denied;
     now := stamp1 |}.

(** What the serving store returns for the three requests of the
    instances below. *)
Definition milk : Todo :=
  {| Todo.id := lit "3"; Todo.title := lit "Buy milk";
     Todo.description := None; Todo.completed := false;
     Todo.created_at := stamp1; Todo.updated_at := stamp1 |}.

Definition todoA_saved : Todo :=
  {| Todo.id := lit "1"; Todo.title := lit "A2";
     Todo.description := Some (lit "more"); Todo.completed := false;
     Todo.created_at := stamp0; Todo.updated_at := stamp1 |}.

Definition todoA_done : Todo :=
  {| Todo.id := lit "1"; Todo.title := lit "A"; Todo.description := None;
     Todo.completed := true;
     Todo.created_at := stamp0; Todo.updated_at := stamp1 |}.

(** A row of the store that the local list does not have. *)
Definition todoC : Todo :=
  {| Todo.id := lit "9"; Todo.title := lit "C"; Todo.description := None;
     Todo.completed := false;
     Todo.created_at := stamp0; Todo.updated_at := stamp0 |}.

(** The list of the two rows, nothing typed, nothing being edited. *)
Definition at_rest : State := init [todoA; todoB].

(** ["  Buy milk "] typed as the title, a blank description. *)
Definition typing : State :=
  {| todos := [todoA; todoB];
     title := lit "  Buy milk ";
     description := lit " ";
     editingId := None; editTitle := []; editDescription := [];
     loading := false |}.

(** A title of blanks only: a space, a tab and a no-break space. *)
Definition typing_blanks : State :=
  {| todos := [todoA; todoB];
     title := [0x20; 0x9; 0xA0];
     description := lit "kept";
     editingId := None; editTitle := []; editDescription := [];
     loading := false |}.

(** Editing the first row, with [" A2 "] as the new title. *)
Definition editing : State :=
  {| todos := [todoA; todoB];
     title := []; description := [];
     editingId := Some (lit "1");
     editTitle := lit " A2 ";
     editDescription := lit "more";
     loading := false |}.

(** Editing the first row, the edit title wiped. *)
Definition editing_blank : State :=
  {| todos := [todoA; todoB];
     title := []; description := [];
     editingId := Some (lit "1");
     editTitle := lit "  ";
     editDescription := lit "more";
     loading := false |}.

(** The list of section 8's scenario. *)
Definition scenario : State := init [todoA].

Definition no_session : Dashboard.Env :=
  {| Dashboard.getUser_answer := None;
     Dashboard.select_answer := fun _ => Success [todoA] |}.

Definition select_refused : Dashboard.Env :=
  {| Dashboard.getUser_answer := Some alice;
     Dashboard.select_answer := fun _ => Failure denied |}.

Definition site : jsstring := lit "https://todo.example.org".

(** [/auth/callback?code=&type=signup] *)
Definition empty_code : Callback.Request :=
  {| Callback.origin := site;
     Callback.searchParams := [(lit "code", []); (lit "type", lit "signup")] |}.

(** [/auth/callback?code=abc&type=recovery] *)
Definition recovery : Callback.Request :=
  {| Callback.origin := site;
     Callback.searchParams :=
       [(lit "code", lit "abc"); (lit "type", lit "recovery")] |}.

(** The first row being saved: the busy flag is up. *)
Definition saving : State :=
  {| todos := [todoA; todoB];
     title := []; description := [];
     editingId := Some (lit "1");
     editTitle := lit " A2 ";
     editDescription := lit "more";
     loading := true |}.

(** The second row after an edit saved with nothing typed. *)
Definition todoB_resaved : Todo :=
  {| Todo.id := lit "2"; Todo.title := lit "B";
     Todo.description := Some (lit "second");
     Todo.completed := true;
     Todo.created_at := stamp0; Todo.updated_at := stamp1 |}.

(** The first row ticked and unticked. *)
Definition todoA_again : Todo :=
  {| Todo.id := lit "1"; Todo.title := lit "A"; Todo.description := None;
     Todo.completed := false;
     Todo.created_at := stamp0; Todo.updated_at := stamp1 |}.

End Samples.

(** * Properties *)

(** ** Strings *)

Section StringFacts.
Import JS.

Lemma truthy_false (s : jsstring) : truthy s = false <-> s = [].
Proof. destruct s; simpl; split; congruence. Qed.

Lemma truthy_true (s : jsstring) : truthy s = true <-> s <> [].
Proof. destruct s; simpl; split; congruence. Qed.

Lemma str_eq_true (a b : jsstring) : str_eq a b = true <-> a = b.
Proof. unfold str_eq. rewrite bool_decide_eq_true. tauto. Qed.

Lemma str_eq_false (a b : jsstring) : str_eq a b = false <-> a <> b.
Proof. unfold str_eq. rewrite bool_decide_eq_false. tauto. Qed.

Lemma nullable_eq_true (a : option jsstring) (b : jsstring) :
  nullable_eq a b = true <-> a = Some b.
Proof.
  destruct a as [x|]; simpl.
  - rewrite str_eq_true. split; congruence.
  - split; discriminate.
Qed.

(** Trimming never leaves a blank at either end, so a string of blanks
    trims to the empty string. *)
Lemma trimStart_blank (s : jsstring) :
  forallb isWhiteSpace s = true -> trimStart s = [].
Proof.
  induction s as [|c s IH]; simpl; [reflexivity|].
  intros [Hc Hs]%andb_prop. rewrite Hc. auto.
Qed.

Lemma trim_blank (s : jsstring) :
  forallb isWhiteSpace s = true -> trim s = [].
Proof.
  intros H. unfold trim, trimEnd. rewrite (trimStart_blank s H). reflexivity.
Qed.

End StringFacts.

(** ** Replacing and removing by id *)

Section ById.
Import JS TodoList.

Lemma replace_by_id_length i data l :
  length (replace_by_id i data l) = length l.
Proof. apply List.length_map. Qed.

Lemma replace_by_id_lookup i data (l : list Todo) k t :
  l !! k = Some t ->
  replace_by_id i data l !! k
  = Some (if str_eq (Todo.id t) i then data else t).
Proof.
  revert k. induction l as [|a l IH]; intros [|k]; simpl; try discriminate.
  - intros [= ->]. reflexivity.
  - apply IH.
Qed.

Lemma replace_by_id_absent i data l :
  ~ In i (ids l) -> replace_by_id i data l = l.
Proof.
  induction l as [|a l IH]; simpl; intros H; [reflexivity|].
  destruct (str_eq (Todo.id a) i) eqn:E.
  - apply str_eq_true in E. tauto.
  - f_equal. apply IH. tauto.
Qed.

Lemma remove_by_id_absent i l :
  ~ In i (ids l) -> remove_by_id i l = l.
Proof.
  induction l as [|a l IH]; simpl; intros H; [reflexivity|].
  destruct (str_eq (Todo.id a) i) eqn:E; simpl.
  - apply str_eq_true in E. tauto.
  - f_equal. apply IH. tauto.
Qed.

Lemma lookup_id_In (l : list Todo) k t :
  l !! k = Some t -> In (Todo.id t) (ids l).
Proof.
  revert k. induction l as [|a l IH]; intros [|k]; simpl; try discriminate.
  - intros [= ->]. now left.
  - intros H. right. eapply IH, H.
Qed.

(** With distinct ids, replacing by id rewrites one position. *)
Lemma replace_by_id_unique i data (l : list Todo) k t :
  List.NoDup (ids l) -> l !! k = Some t -> Todo.id t = i ->
  replace_by_id i data l = <[k := data]> l.
Proof.
  revert k. induction l as [|a l IH]; intros [|k] Hnd; simpl;
    try discriminate; inversion Hnd as [|? ? Hnotin Hnd']; subst.
  - intros [= ->] <-. rewrite (proj2 (str_eq_true _ _) eq_refl).
    f_equal. now apply replace_by_id_absent.
  - intros Hk Hid.
    assert (Hne : Todo.id a <> i).
    { intros Heq. apply Hnotin. rewrite Heq, <- Hid.
      eapply lookup_id_In, Hk. }
    rewrite (proj2 (str_eq_false _ _) Hne). f_equal. now apply IH.
Qed.

(** With distinct ids, removing by id deletes one position. *)
Lemma remove_by_id_unique i (l : list Todo) k t :
  List.NoDup (ids l) -> l !! k = Some t -> Todo.id t = i ->
  remove_by_id i l = delete k l.
Proof.
  revert k. induction l as [|a l IH]; intros [|k] Hnd; simpl;
    try discriminate; inversion Hnd as [|? ? Hnotin Hnd']; subst.
  - intros [= ->] <-. rewrite (proj2 (str_eq_true _ _) eq_refl). simpl.
    now apply remove_by_id_absent.
  - intros Hk Hid.
    assert (Hne : Todo.id a <> i).
    { intros Heq. apply Hnotin. rewrite Heq, <- Hid.
      eapply lookup_id_In, Hk. }
    rewrite (proj2 (str_eq_false _ _) Hne). simpl. f_equal. now apply IH.
Qed.

Lemma remove_by_id_gone i l : ~ In i (ids (remove_by_id i l)).
Proof.
  induction l as [|a l IH]; simpl; [tauto|].
  destruct (str_eq (Todo.id a) i) eqn:E; simpl; [exact IH|].
  apply str_eq_false in E. tauto.
Qed.

End ById.

(** ** The list component *)

Section TodoListFacts.
Import JS Supabase TodoList.

Variable env : Env.
Variable user : User.

Ltac run_handler :=
  unfold invoke, handleCreate, handleUpdate, handleDelete,
    handleToggleComplete, bind, perform, return_, pure, store_insert,
    store_update, store_delete, confirm, setLoading, setTodos, setTitle,
    setDescription, setEditingId, setEditTitle, setEditDescription, modify,
    create_row, edit_fields, toggle_fields, idle, replace_by_id,
    remove_by_id;
  simpl.

(** *** Create *)

Lemma handleCreate_blank_title (s : State) :
  trim (title s) = [] ->
  invoke (handleCreate env user) s = (s, [PreventDefault]).
Proof. intros H. run_handler. rewrite H. reflexivity. Qed.

Lemma handleCreate_calls_store (s : State) :
  trim (title s) <> [] ->
  exists rest,
    snd (invoke (handleCreate env user) s)
    = PreventDefault :: StoreInsert (create_row user s) :: rest.
Proof.
  intros H. run_handler. apply truthy_true in H. rewrite H. simpl.
  destruct (insert_answer env _); simpl; eauto.
Qed.

(** C1.  When the trimmed title is not empty and the store's insert
    succeeds with the record [data], create leaves the list as [data]
    followed by all the records that were there, in their order (one record
    more, at the head of the sequence), empties the title and description
    fields, touches no other cell but the busy flag, and has made exactly
    one store call, the insert of the trimmed fields. *)
Theorem handleCreate_success (s : State) (data : Todo) :
  trim (title s) <> [] ->
  insert_answer env (create_row user s) = Success data ->
  invoke (handleCreate env user) s
  = ({| todos := data :: todos s;
        title := [];
        description := [];
        editingId := editingId s;
        editTitle := editTitle s;
        editDescription := editDescription s;
        loading := false |},
     [PreventDefault; StoreInsert (create_row user s)]).
Proof.
  intros Ht Hans. run_handler. apply truthy_true in Ht. rewrite Ht. simpl.
  unfold create_row in Hans. rewrite Hans. reflexivity.
Qed.

(** C5.  When the title trims to the empty string (it is empty or made of
    blanks only), create makes no store call and changes no cell: the
    list, the form fields and the busy flag are what they were, and the
    only thing done is [e.preventDefault()]. *)
Theorem handleCreate_blank (s : State) :
  trim (title s) = [] ->
  invoke (handleCreate env user) s = (s, [PreventDefault])
  /\ existsb is_store_call (snd (invoke (handleCreate env user) s)) = false.
Proof.
  intros H. rewrite (handleCreate_blank_title s H). split; reflexivity.
Qed.

(** *** Update *)

Lemma handleUpdate_blank_title (s : State) (i : jsstring) :
  trim (editTitle s) = [] ->
  invoke (fun c => handleUpdate env c i) s = (s, []).
Proof. intros H. run_handler. rewrite H. reflexivity. Qed.

Lemma handleUpdate_answered (s : State) (i : jsstring) :
  trim (editTitle s) <> [] ->
  invoke (fun c => handleUpdate env c i) s
  = match update_answer env i (edit_fields env s) with
    | Success data =>
        ({| todos := replace_by_id i data (todos s);
            title := title s;
            description := description s;
            editingId := None;
            editTitle := [];
            editDescription := [];
            loading := false |},
         [StoreUpdate i (edit_fields env s)])
    | Failure error =>
        (idle s,
         [StoreUpdate i (edit_fields env s);
          ConsoleError (lit "Error updating todo:") error;
          Alert (lit "Error updating todo: " ++ message error)])
    end.
Proof.
  intros H. run_handler. apply truthy_true in H. rewrite H. simpl.
  destruct (update_answer env i _); reflexivity.
Qed.

(** C2.  An update of the record at position [k], whose id is [i], with a
    non-blank edit title.  If the store succeeds with [data]: every
    position keeps its record, except that a record whose id is [i] is
    replaced by [data] (so its title, description and [updated_at] are the
    server's); the length and the order are kept; with distinct ids the new
    list is the old one with position [k] overwritten; the edit state is
    cleared; no other cell but the busy flag changes.  If the store fails:
    the list and the edit state are what they were and an alert is raised.
    So the edit state is cleared exactly when the update succeeds. *)
Theorem handleUpdate_reconciles (s : State) (k : nat) (t : Todo) :
  todos s !! k = Some t ->
  trim (editTitle s) <> [] ->
  let i := Todo.id t in
  let s' := fst (invoke (fun c => handleUpdate env c i) s) in
  let tr := snd (invoke (fun c => handleUpdate env c i) s) in
  (forall data,
      update_answer env i (edit_fields env s) = Success data ->
      tr = [StoreUpdate i (edit_fields env s)]
      /\ length (todos s') = length (todos s)
      /\ (forall j u, todos s !! j = Some u ->
             todos s' !! j
             = Some (if bool_decide (Todo.id u = i) then data else u))
      /\ (todos s' !! k = Some data
          /\ Todo.title <$> todos s' !! k = Some (Todo.title data)
          /\ Todo.description <$> todos s' !! k = Some (Todo.description data)
          /\ Todo.updated_at <$> todos s' !! k = Some (Todo.updated_at data))
      /\ (List.NoDup (ids (todos s)) -> todos s' = <[k := data]> (todos s))
      /\ edit_cleared s'
      /\ title s' = title s /\ description s' = description s
      /\ loading s' = false)
  /\ (forall error,
        update_answer env i (edit_fields env s) = Failure error ->
        s' = idle s
        /\ todos s' = todos s
        /\ editingId s' = editingId s
        /\ editTitle s' = editTitle s
        /\ editDescription s' = editDescription s
        /\ In (Alert (lit "Error updating todo: " ++ message error)) tr)
  /\ (edit_cleared s'
      <-> exists data,
          update_answer env i (edit_fields env s) = Success data).
Proof.
  intros Hk Ht i s' tr. subst s' tr.
  rewrite (handleUpdate_answered s i Ht).
  destruct (update_answer env i (edit_fields env s)) as [d|e] eqn:Hans;
    simpl; (split; [|split]).
  - intros data [= <-]. split; [reflexivity|].
    split; [apply replace_by_id_length|].
    split; [intros j u Hj; apply (replace_by_id_lookup i d _ _ _ Hj)|].
    assert (Hat : replace_by_id i d (todos s) !! k = Some d).
    { rewrite (replace_by_id_lookup i d _ _ _ Hk).
      unfold i, str_eq. now rewrite bool_decide_true. }
    split; [rewrite Hat; simpl; auto|].
    split; [intros Hnd; now apply (replace_by_id_unique i d _ k t)|].
    unfold edit_cleared; simpl; auto 10.
  - intros error [=].
  - split; [eauto|]. intros _. unfold edit_cleared; simpl; auto.
  - intros data [=].
  - intros error [= <-]. simpl. repeat split; auto.
  - unfold edit_cleared; simpl. split.
    + intros (_ & Hnil & _). rewrite Hnil in Ht. now contradiction Ht.
    + intros [data [=]].
Qed.

(** *** Toggle *)

Lemma handleToggleComplete_answered (s : State) (i : jsstring) (b : bool) :
  invoke (fun c => handleToggleComplete env c i b) s
  = match update_answer env i (toggle_fields env b) with
    | Success data =>
        ({| todos := replace_by_id i data (todos s);
            title := title s;
            description := description s;
            editingId := editingId s;
            editTitle := editTitle s;
            editDescription := editDescription s;
            loading := false |},
         [StoreUpdate i (toggle_fields env b)])
    | Failure error =>
        (idle s,
         [StoreUpdate i (toggle_fields env b);
          ConsoleError (lit "Error toggling todo:") error])
    end.
Proof.
  run_handler. destruct (update_answer env i _); reflexivity.
Qed.

(** C3.  The checkbox of the record [t] at position [k] calls the handler
    with [t]'s id and [t]'s own [completed].  The request asks for the
    negated flag and a fresh [updated_at].  On success with [data], a record
    whose id is [t]'s is replaced by [data] and every other record stays
    where it is; with distinct ids only position [k] changes; and when the
    store answers with [t] updated as requested, position [k] holds [t]
    with [completed] flipped and [updated_at] refreshed, nothing else.  On
    failure the list is what it was, every cell but the busy flag too, the
    error is logged with [console.error] and no alert is raised. *)
Theorem handleToggleComplete_reconciles (s : State) (k : nat) (t : Todo) :
  todos s !! k = Some t ->
  let i := Todo.id t in
  let fields := toggle_fields env (Todo.completed t) in
  let run :=
    invoke (fun c => handleToggleComplete env c i (Todo.completed t)) s in
  let s' := fst run in
  let tr := snd run in
  upd_completed fields = Some (negb (Todo.completed t))
  /\ upd_updated_at fields = Some (now env)
  /\ (forall data,
        update_answer env i fields = Success data ->
        tr = [StoreUpdate i fields]
        /\ length (todos s') = length (todos s)
        /\ (forall j u, todos s !! j = Some u ->
               todos s' !! j
               = Some (if bool_decide (Todo.id u = i) then data else u))
        /\ (List.NoDup (ids (todos s)) ->
            todos s' = <[k := data]> (todos s))
        /\ (List.NoDup (ids (todos s)) ->
            data = store_applies fields t ->
            todos s'
            = <[k := {| Todo.id := Todo.id t;
                        Todo.title := Todo.title t;
                        Todo.description := Todo.description t;
                        Todo.completed := negb (Todo.completed t);
                        Todo.created_at := Todo.created_at t;
                        Todo.updated_at := now env |}]> (todos s))
        /\ title s' = title s /\ description s' = description s
        /\ editingId s' = editingId s /\ editTitle s' = editTitle s
        /\ editDescription s' = editDescription s)
  /\ (forall error,
        update_answer env i fields = Failure error ->
        todos s' = todos s
        /\ s' = idle s
        /\ tr = [StoreUpdate i fields;
                 ConsoleError (lit "Error toggling todo:") error]
        /\ existsb is_alert tr = false).
Proof.
  intros Hk i fields run s' tr. subst s' tr run.
  rewrite (handleToggleComplete_answered s i (Todo.completed t)).
  fold fields.
  split; [reflexivity|]. split; [reflexivity|].
  destruct (update_answer env i fields) as [d|e]; simpl; split.
  - intros data [= <-]. split; [reflexivity|].
    split; [apply replace_by_id_length|].
    split; [intros j u Hj; apply (replace_by_id_lookup i d _ _ _ Hj)|].
    split; [intros Hnd; now apply (replace_by_id_unique i d _ k t)|].
    split; [|auto 10].
    intros Hnd ->. now rewrite (replace_by_id_unique i _ _ k t Hnd Hk eq_refl).
  - intros error [=].
  - intros data [=].
  - intros error [= <-]. auto.
Qed.

(** *** Delete *)

Lemma handleDelete_answered (s : State) (i : jsstring) :
  invoke (fun c => handleDelete env c i) s
  = if confirm_answer env delete_question then
      match delete_answer env i with
      | None =>
          ({| todos := remove_by_id i (todos s);
              title := title s;
              description := description s;
              editingId := editingId s;
              editTitle := editTitle s;
              editDescription := editDescription s;
              loading := false |},
           [Confirm delete_question; StoreDelete i])
      | Some error =>
          (idle s,
           [Confirm delete_question; StoreDelete i;
            ConsoleError (lit "Error deleting todo:") error;
            Alert (lit "Error deleting todo: " ++ message error)])
      end
    else (s, [Confirm delete_question]).
Proof.
  run_handler. fold delete_question.
  destruct (confirm_answer env delete_question); simpl; [|reflexivity].
  destruct (delete_answer env i); reflexivity.
Qed.

(** C4.  The Delete button of the record [t] at position [k].  If the
    confirmation is declined, nothing but the question happens: no store
    call, every cell unchanged.  If it is granted and the store's delete
    succeeds, the new list is the old one without the records whose id is
    [t]'s, the others in their order; with distinct ids that is the old
    list with position [k] deleted, one record fewer.  If the store's
    delete fails, an alert is raised and the list is what it was. *)
Theorem handleDelete_cases (s : State) (k : nat) (t : Todo) :
  todos s !! k = Some t ->
  let i := Todo.id t in
  let run := invoke (fun c => handleDelete env c i) s in
  let s' := fst run in
  let tr := snd run in
  (confirm_answer env delete_question = false ->
   s' = s /\ tr = [Confirm delete_question]
   /\ existsb is_store_call tr = false)
  /\ (confirm_answer env delete_question = true ->
      delete_answer env i = None ->
      tr = [Confirm delete_question; StoreDelete i]
      /\ todos s' = remove_by_id i (todos s)
      /\ (forall u, In u (todos s') <-> In u (todos s) /\ Todo.id u <> i)
      /\ (List.NoDup (ids (todos s)) ->
          todos s' = delete k (todos s)
          /\ S (length (todos s')) = length (todos s)))
  /\ (forall error,
        confirm_answer env delete_question = true ->
        delete_answer env i = Some error ->
        todos s' = todos s
        /\ s' = idle s
        /\ In (Alert (lit "Error deleting todo: " ++ message error)) tr).
Proof.
  intros Hk i run s' tr. subst s' tr run.
  rewrite (handleDelete_answered s i).
  destruct (confirm_answer env delete_question); [|now auto].
  split; [discriminate|].
  destruct (delete_answer env i) as [e|]; cbn [fst snd]; split.
  - intros _ [=].
  - intros error _ [= <-]. split; [reflexivity|]. split; [reflexivity|].
    do 3 right. now left.
  - intros _ _. cbn [todos]. split; [reflexivity|]. split; [reflexivity|].
    split.
    + intros u. unfold remove_by_id. rewrite List.filter_In.
      rewrite negb_true_iff, str_eq_false. reflexivity.
    + intros Hnd. rewrite (remove_by_id_unique i _ k t Hnd Hk eq_refl).
      split; [reflexivity|].
      rewrite length_delete by eauto.
      apply lookup_lt_Some in Hk. lia.
  - intros error _ [=].
Qed.

(** *** The Save button *)

Lemma offered_todo (s : State) (cb : Callback) :
  offered s cb ->
  In cb [Change_setTitle; Change_setDescription; Submit_handleCreate]
  \/ exists todo,
       In todo (todos s) /\ In (mkControl cb false) (render_todo s todo).
Proof.
  unfold offered, render. rewrite List.in_app_iff. intros [H|H].
  - left. simpl in H. simpl.
    destruct H as [H|[H|[H|[]]]]; inversion H; auto.
  - right. destruct (length (todos s) =? 0)%nat; [destruct H|].
    apply List.in_flat_map in H. exact H.
Qed.

(** Save is rendered for a record only inside the branch
    [editingId === todo.id], with that record's id as its argument. *)
Lemma offered_handleUpdate (s : State) (i : jsstring) :
  offered s (Click_handleUpdate i) ->
  editingId s = Some i /\ In i (ids (todos s)) /\ loading s = false.
Proof.
  intros H. destruct (offered_todo s _ H) as [Hform|(todo & Hin & Hc)].
  - simpl in Hform. destruct Hform as [E|[E|[E|[]]]]; discriminate E.
  - unfold render_todo in Hc.
    destruct (nullable_eq (editingId s) (Todo.id todo)) eqn:E; simpl in Hc.
    + destruct Hc as [Hc|[Hc|[Hc|[Hc|[]]]]]; try discriminate Hc.
      injection Hc as <- Hl. apply nullable_eq_true in E.
      split; [exact E|]. split; [|exact Hl].
      unfold ids. apply List.in_map_iff. eauto.
    + destruct Hc as [Hc|[Hc|[Hc|[]]]]; discriminate Hc.
Qed.

Lemma In_lookup (l : list Todo) (t : Todo) :
  In t l -> exists k, l !! k = Some t.
Proof. intros H. apply list_elem_of_lookup_1, list_elem_of_In, H. Qed.

(** Every control that is not disabled is rendered with the busy flag
    down. *)
Lemma offered_idle (s : State) (cb : Callback) :
  offered s cb -> loading s = false.
Proof.
  unfold offered, render. rewrite List.in_app_iff. intros [H|H].
  - simpl in H. destruct H as [H|[H|[H|[]]]]; now inversion H.
  - destruct (length (todos s) =? 0)%nat; [destruct H|].
    apply List.in_flat_map in H. destruct H as (todo & _ & Hc).
    unfold render_todo in Hc.
    destruct (nullable_eq (editingId s) (Todo.id todo)); simpl in Hc;
      repeat (destruct Hc as [Hc|Hc]; [now inversion Hc|]); destruct Hc.
Qed.

(** The checkbox of a record passes that record's id and its own
    [completed]; it is rendered outside the editing branch. *)
Lemma offered_handleToggleComplete (s : State) (i : jsstring) (b : bool) :
  offered s (Change_handleToggleComplete i b) ->
  exists k t,
    todos s !! k = Some t /\ Todo.id t = i /\ Todo.completed t = b
    /\ editingId s <> Some i.
Proof.
  intros H. destruct (offered_todo s _ H) as [Hform|(todo & Hin & Hc)].
  - simpl in Hform. destruct Hform as [E|[E|[E|[]]]]; discriminate E.
  - unfold render_todo in Hc.
    destruct (nullable_eq (editingId s) (Todo.id todo)) eqn:E; simpl in Hc.
    + destruct Hc as [Hc|[Hc|[Hc|[Hc|[]]]]]; discriminate Hc.
    + destruct Hc as [Hc|[Hc|[Hc|[]]]]; try discriminate Hc.
      injection Hc as <- <- _. destruct (In_lookup _ _ Hin) as [k Hk].
      exists k, todo. repeat split; auto.
      intros Hid. apply nullable_eq_true in Hid. congruence.
Qed.

(** The Delete button of a record passes that record's id. *)
Lemma offered_handleDelete (s : State) (i : jsstring) :
  offered s (Click_handleDelete i) ->
  exists k t, todos s !! k = Some t /\ Todo.id t = i.
Proof.
  intros H. destruct (offered_todo s _ H) as [Hform|(todo & Hin & Hc)].
  - simpl in Hform. destruct Hform as [E|[E|[E|[]]]]; discriminate E.
  - unfold render_todo in Hc.
    destruct (nullable_eq (editingId s) (Todo.id todo)) eqn:E; simpl in Hc.
    + destruct Hc as [Hc|[Hc|[Hc|[Hc|[]]]]]; discriminate Hc.
    + destruct Hc as [Hc|[Hc|[Hc|[]]]]; try discriminate Hc.
      injection Hc as <- _. destruct (In_lookup _ _ Hin) as [k Hk].
      exists k, todo. auto.
Qed.

Lemma handleUpdate_calls_store (s : State) (i : jsstring) :
  existsb is_store_call (snd (invoke (fun c => handleUpdate env c i) s))
  = truthy (trim (editTitle s)).
Proof.
  destruct (trim (editTitle s)) as [|c r] eqn:E.
  - rewrite (handleUpdate_blank_title s i E). reflexivity.
  - rewrite handleUpdate_answered by (rewrite E; discriminate).
    destruct (update_answer env i _); reflexivity.
Qed.

(** C6.  [handleUpdate] is called by the Save button only, and that button
    is rendered for a record only while the editing target is that record.
    So whenever the user can trigger an update for the id [i], the editing
    target is [i]; the update calls the store exactly when the trimmed edit
    title is not empty, hence only with an active edit target and a
    non-empty trimmed title; and with an empty trimmed edit title there is
    no store call and no cell changes. *)
Theorem handleUpdate_requires_target_and_title
    (s : State) (i value : jsstring) :
  offered s (Click_handleUpdate i) ->
  let run := fire env user (Click_handleUpdate i) value s in
  run = invoke (fun c => handleUpdate env c i) s
  /\ editingId s = Some i
  /\ (existsb is_store_call (snd run) = true ->
      editingId s = Some i /\ trim (editTitle s) <> [])
  /\ (trim (editTitle s) <> [] ->
      exists rest, snd run = StoreUpdate i (edit_fields env s) :: rest)
  /\ (trim (editTitle s) = [] -> run = (s, [])).
Proof.
  intros Hoff run. subst run. cbn [fire].
  destruct (offered_handleUpdate s i Hoff) as (Hid & _ & _).
  split; [reflexivity|]. split; [exact Hid|]. split; [|split].
  - rewrite handleUpdate_calls_store, truthy_true. auto.
  - intros Ht. rewrite (handleUpdate_answered s i Ht).
    destruct (update_answer env i _); simpl; eauto.
  - apply handleUpdate_blank_title.
Qed.

(** The guard on the editing target is the render's, not the handler's:
    the body of [handleUpdate] reads [editTitle] only, so a call made with
    a non-blank edit title reaches the store whatever [editingId] is. *)
Remark handleUpdate_body_ignores_editingId (s : State) (i : jsstring) :
  trim (editTitle s) <> [] ->
  exists rest,
    snd (invoke (fun c => handleUpdate env c i) s)
    = StoreUpdate i (edit_fields env s) :: rest.
Proof.
  intros Ht. rewrite (handleUpdate_answered s i Ht).
  destruct (update_answer env i _); simpl; eauto.
Qed.

(** *** Ids that are not in the list *)

(** C10.  When no record of the list has the id [i], an update, a toggle
    and a delete for [i] leave the list as it is, whatever the store
    answers, so in particular when it succeeds: the returned record is
    neither inserted nor appended, and nothing is removed. *)
Theorem absent_id_leaves_list (s : State) (i : jsstring) :
  ~ In i (ids (todos s)) ->
  (forall data,
      trim (editTitle s) <> [] ->
      update_answer env i (edit_fields env s) = Success data ->
      invoke (fun c => handleUpdate env c i) s
      = ({| todos := todos s;
            title := title s;
            description := description s;
            editingId := None;
            editTitle := [];
            editDescription := [];
            loading := false |},
         [StoreUpdate i (edit_fields env s)]))
  /\ (forall completed data,
        update_answer env i (toggle_fields env completed) = Success data ->
        invoke (fun c => handleToggleComplete env c i completed) s
        = (idle s, [StoreUpdate i (toggle_fields env completed)]))
  /\ (confirm_answer env delete_question = true ->
      delete_answer env i = None ->
      invoke (fun c => handleDelete env c i) s
      = (idle s, [Confirm delete_question; StoreDelete i]))
  /\ todos (fst (invoke (fun c => handleUpdate env c i) s)) = todos s
  /\ (forall completed,
        todos (fst (invoke (fun c => handleToggleComplete env c i completed) s))
        = todos s)
  /\ todos (fst (invoke (fun c => handleDelete env c i) s)) = todos s.
Proof.
  intros Habs.
  pose proof (fun data => replace_by_id_absent i data _ Habs) as Hrep.
  pose proof (remove_by_id_absent i _ Habs) as Hrem.
  split; [|split; [|split; [|split; [|split]]]].
  - intros data Ht Hans. rewrite (handleUpdate_answered s i Ht), Hans.
    now rewrite Hrep.
  - intros b data Hans. rewrite handleToggleComplete_answered, Hans.
    now rewrite Hrep.
  - intros Hc Hd. rewrite handleDelete_answered, Hc, Hd. now rewrite Hrem.
  - destruct (trim (editTitle s)) as [|c r] eqn:E.
    + now rewrite (handleUpdate_blank_title s i E).
    + rewrite handleUpdate_answered by (rewrite E; discriminate).
      destruct (update_answer env i _); cbn [fst todos idle]; auto.
  - intros b. rewrite handleToggleComplete_answered.
    destruct (update_answer env i _); cbn [fst todos idle]; auto.
  - rewrite handleDelete_answered.
    destruct (confirm_answer env delete_question); [|reflexivity].
    destruct (delete_answer env i); cbn [fst todos idle]; auto.
Qed.

End TodoListFacts.

(** ** The dashboard loader *)

Section DashboardFacts.
Import JS Supabase Dashboard.

Variable env : Env.

(** C7.  With no current user the loader answers with a redirect to
    [/login], and the request ends there: the session provider was asked
    for the user, the redirect was issued, and nothing else happened, in
    particular no query of the Record Store. *)
Theorem DashboardPage_unauthenticated :
  getUser_answer env = None ->
  run env
  = (Redirected (lit "/login"),
     [CreateClient; GetUser; Redirect (lit "/login")])
  /\ existsb is_store_query (snd (run env)) = false.
Proof.
  intros H. unfold run, DashboardPage, bind, perform, auth_getUser, redirect.
  cbn [app]. rewrite H. split; reflexivity.
Qed.

(** C8.  With a current user and a failing select, the loader logs the
    error with [console.error] and still renders: the list component
    receives the empty list and the user, so its list starts empty, and the
    page is the very page a successful select of no rows gives. *)
Theorem DashboardPage_select_failure (u : User) (error : PostgrestError) :
  getUser_answer env = Some u ->
  select_answer env (todos_of u) = Failure error ->
  run env
  = (Value {| heading := lit "Dashboard";
              welcome := email u;
              signout_action := lit "/auth/signout";
              signout_method := lit "post";
              list_component := {| initialTodos := []; user := u |} |},
     [CreateClient; GetUser; StoreSelect (todos_of u);
      ConsoleError (lit "Error fetching todos:") error])
  /\ (forall page,
        fst (run env) = Value page ->
        TodoList.todos (TodoList.init (initialTodos (list_component page)))
        = [])
  /\ fst (run env)
     = fst (run {| getUser_answer := Some u;
                   select_answer := fun _ => Success [] |}).
Proof.
  intros Hu Hsel.
  assert (E : run env
    = (Value {| heading := lit "Dashboard";
                welcome := email u;
                signout_action := lit "/auth/signout";
                signout_method := lit "post";
                list_component := {| initialTodos := []; user := u |} |},
       [CreateClient; GetUser; StoreSelect (todos_of u);
        ConsoleError (lit "Error fetching todos:") error])).
  { unfold run, DashboardPage, bind, perform, auth_getUser, store_select,
      pure. cbn [app]. rewrite Hu. fold (todos_of u). rewrite Hsel.
    reflexivity. }
  rewrite E. split; [reflexivity|]. split.
  - intros page [= <-]. reflexivity.
  - reflexivity.
Qed.

End DashboardFacts.

(** ** The authentication callback *)

Section CallbackFacts.
Import JS Callback.

Lemma destinations_differ (origin : jsstring) :
  origin ++ lit "/reset-password" <> origin ++ lit "/dashboard".
Proof. intros H. apply app_inv_head in H. vm_compute in H. discriminate H. Qed.

Lemma GET_response (ex : jsstring -> Exchange) (req : Request) :
  fst (GET ex req)
  = if nullable_eq (get (searchParams req) (lit "type")) (lit "recovery")
    then redirect (origin req ++ lit "/reset-password")
    else redirect (origin req ++ lit "/dashboard").
Proof.
  unfold GET.
  destruct (nullable_eq (get (searchParams req) (lit "type")) (lit "recovery"));
    reflexivity.
Qed.

Lemma GET_trace (ex : jsstring -> Exchange) (req : Request) :
  snd (GET ex req)
  = match get (searchParams req) (lit "code") with
    | Some c => if truthy c then [CreateClient; ExchangeCodeForSession c]
                else []
    | None => []
    end.
Proof.
  unfold GET.
  destruct (nullable_eq (get (searchParams req) (lit "type")) (lit "recovery"));
    reflexivity.
Qed.

(** C9, as the code has it.  The response is a redirect to
    [origin + "/reset-password"] exactly when the first [type] parameter is
    ["recovery"], and to [origin + "/dashboard"] in every other case.  The
    exchange is attempted exactly when a [code] parameter is present and
    its value is not the empty string, once, with that value.  The
    response depends on the origin and the [type] parameter only: not on
    the code, and not on what the exchange answers. *)
Theorem GET_redirects (ex : jsstring -> Exchange) (req : Request) :
  let type := get (searchParams req) (lit "type") in
  let code := get (searchParams req) (lit "code") in
  (fst (GET ex req) = redirect (origin req ++ lit "/reset-password")
   <-> type = Some (lit "recovery"))
  /\ (fst (GET ex req) = redirect (origin req ++ lit "/dashboard")
      <-> type <> Some (lit "recovery"))
  /\ (exchange_attempted (snd (GET ex req)) = true
      <-> exists c, code = Some c /\ c <> [])
  /\ (forall c, code = Some c -> c <> [] ->
        snd (GET ex req) = [CreateClient; ExchangeCodeForSession c])
  /\ (forall ex' req',
        origin req' = origin req ->
        get (searchParams req') (lit "type") = type ->
        fst (GET ex' req') = fst (GET ex req)).
Proof.
  intros type code.
  pose proof (destinations_differ (origin req)) as Hne.
  split; [|split; [|split; [|split]]].
  - rewrite GET_response. fold type.
    destruct (nullable_eq type (lit "recovery")) eqn:E.
    + apply nullable_eq_true in E. tauto.
    + split; [intros [= H]; congruence|].
      intros H. apply nullable_eq_true in H. congruence.
  - rewrite GET_response. fold type.
    destruct (nullable_eq type (lit "recovery")) eqn:E.
    + apply nullable_eq_true in E. split; [intros [= H]|]; congruence.
    + split; [|reflexivity]. intros _ H. apply nullable_eq_true in H.
      congruence.
  - rewrite GET_trace. fold code. destruct code as [c|].
    + destruct (truthy c) eqn:E.
      * split; [|reflexivity]. intros _. exists c. split; [reflexivity|].
        now apply truthy_true.
      * apply truthy_false in E. split; [discriminate|].
        intros (c' & [= <-] & Hc). contradiction.
    + split; [discriminate|]. intros (c' & [=] & _).
  - intros c Hc Hnil. rewrite GET_trace. fold code. rewrite Hc.
    apply truthy_true in Hnil. now rewrite Hnil.
  - intros ex' req' Ho Ht. rewrite !GET_response, Ho, Ht. reflexivity.
Qed.

End CallbackFacts.

(** ** Worked instances *)

Section Instances.
Import JS Supabase TodoList Samples.

Ltac distinct_ids :=
  vm_compute;
  repeat (constructor; [intros H; simpl in H; intuition discriminate|]);
  constructor.

(** Create with the title ["  Buy milk "]: the row is sent trimmed and the
    returned record heads the list. *)
Lemma create_buy_milk :
  trim (title typing) <> []
  /\ invoke (handleCreate (serving [todoA; todoB] true) alice) typing
     = ({| todos := [milk; todoA; todoB];
           title := []; description := [];
           editingId := None; editTitle := []; editDescription := [];
           loading := false |},
        [PreventDefault;
         StoreInsert {| ins_title := lit "Buy milk";
                        ins_description := None;
                        ins_user_id := lit "u-1";
                        ins_completed := false |}]).
Proof.
  assert (Ht : trim (title typing) <> []) by (vm_compute; discriminate).
  split; [exact Ht|].
  exact (handleCreate_success (serving [todoA; todoB] true) alice typing milk
           Ht eq_refl).
Defined.

(** Create with a title of blanks: nothing happens. *)
Lemma create_blanks_only :
  trim (title typing_blanks) = []
  /\ invoke (handleCreate (serving [todoA; todoB] true) alice) typing_blanks
     = (typing_blanks, [PreventDefault])
  /\ existsb is_store_call
       (snd (invoke (handleCreate (serving [todoA; todoB] true) alice)
                    typing_blanks)) = false.
Proof.
  split; [reflexivity|].
  exact (handleCreate_blank (serving [todoA; todoB] true) alice typing_blanks
           eq_refl).
Defined.

(** Saving the first row: it is rewritten in place and the edit state is
    cleared; when the store refuses, the edit state stays. *)
Lemma save_first_row :
  todos editing !! 0%nat = Some todoA
  /\ trim (editTitle editing) <> []
  /\ todos (fst (invoke (fun c => handleUpdate (serving [todoA; todoB] true)
                                               c (lit "1")) editing))
     = [todoA_saved; todoB]
  /\ edit_cleared
       (fst (invoke (fun c => handleUpdate (serving [todoA; todoB] true)
                                           c (lit "1")) editing))
  /\ editingId
       (fst (invoke (fun c => handleUpdate (refusing true) c (lit "1"))
                    editing))
     = Some (lit "1").
Proof.
  assert (Ht : trim (editTitle editing) <> []) by (vm_compute; discriminate).
  split; [reflexivity|]. split; [exact Ht|].
  pose proof (handleUpdate_reconciles (serving [todoA; todoB] true) editing
                0 todoA eq_refl Ht) as Hok.
  pose proof (handleUpdate_reconciles (refusing true) editing
                0 todoA eq_refl Ht) as Hko.
  cbv zeta in Hok, Hko.
  destruct Hok as (Hok & _ & _). destruct Hko as (_ & Hko & _).
  destruct (Hok todoA_saved eq_refl) as (_ & _ & _ & _ & Hnd & Hc & _).
  destruct (Hko denied eq_refl) as (_ & _ & He & _).
  split; [apply Hnd; distinct_ids|]. split; [exact Hc|exact He].
Defined.

(** The scenario of section 8: the list [[{id:1, title:"A",
    completed:false}]], toggle(1) succeeds, the record is completed.  When
    the store refuses, the list is untouched and nothing is alerted. *)
Lemma toggle_scenario :
  todos scenario !! 0%nat = Some todoA
  /\ todos (fst (invoke (fun c => handleToggleComplete (serving [todoA] true)
                                    c (lit "1") false) scenario))
     = [todoA_done]
  /\ todos (fst (invoke (fun c => handleToggleComplete (refusing true)
                                    c (lit "1") false) scenario))
     = [todoA]
  /\ existsb is_alert
       (snd (invoke (fun c => handleToggleComplete (refusing true)
                                c (lit "1") false) scenario)) = false.
Proof.
  split; [reflexivity|].
  pose proof (handleToggleComplete_reconciles (serving [todoA] true) scenario
                0 todoA eq_refl) as Hok.
  pose proof (handleToggleComplete_reconciles (refusing true) scenario
                0 todoA eq_refl) as Hko.
  cbv zeta in Hok, Hko.
  destruct Hok as (_ & _ & Hok & _). destruct Hko as (_ & _ & _ & Hko).
  destruct (Hok todoA_done eq_refl) as (_ & _ & _ & _ & Hflip & _).
  destruct (Hko denied eq_refl) as (Hsame & _ & _ & Hquiet).
  split; [apply Hflip; [distinct_ids|reflexivity]|].
  split; [exact Hsame|exact Hquiet].
Defined.

(** Deleting the first row: declined, granted, and refused by the store. *)
Lemma delete_first_row :
  todos at_rest !! 0%nat = Some todoA
  /\ invoke (fun c => handleDelete (serving [todoA; todoB] false) c (lit "1"))
            at_rest
     = (at_rest, [Confirm delete_question])
  /\ todos (fst (invoke (fun c => handleDelete (serving [todoA; todoB] true)
                                               c (lit "1")) at_rest))
     = [todoB]
  /\ todos (fst (invoke (fun c => handleDelete (refusing true) c (lit "1"))
                        at_rest))
     = [todoA; todoB].
Proof.
  split; [reflexivity|].
  pose proof (handleDelete_cases (serving [todoA; todoB] false) at_rest
                0 todoA eq_refl) as Hno.
  pose proof (handleDelete_cases (serving [todoA; todoB] true) at_rest
                0 todoA eq_refl) as Hok.
  pose proof (handleDelete_cases (refusing true) at_rest
                0 todoA eq_refl) as Hko.
  cbv zeta in Hno, Hok, Hko.
  destruct Hno as (Hno & _ & _). destruct Hok as (_ & Hok & _).
  destruct Hko as (_ & _ & Hko).
  destruct (Hno eq_refl) as (Hs & Htr & _).
  destruct (Hok eq_refl eq_refl) as (_ & _ & _ & Hnd).
  destruct (Hko denied eq_refl eq_refl) as (Hsame & _).
  split.
  { refine (eq_trans (surjective_pairing _) _).
    exact (f_equal2 pair Hs Htr). }
  split; [apply Hnd; distinct_ids|exact Hsame].
Defined.

(** Save is offered for the row being edited; with the edit title wiped it
    does nothing. *)
Lemma save_is_offered_while_editing :
  offered editing (Click_handleUpdate (lit "1"))
  /\ offered editing_blank (Click_handleUpdate (lit "1"))
  /\ editingId editing = Some (lit "1")
  /\ fire (serving [todoA; todoB] true) alice (Click_handleUpdate (lit "1"))
          [] editing_blank
     = (editing_blank, []).
Proof.
  assert (H1 : offered editing (Click_handleUpdate (lit "1"))).
  { vm_compute. do 5 right. left. reflexivity. }
  assert (H2 : offered editing_blank (Click_handleUpdate (lit "1"))).
  { vm_compute. do 5 right. left. reflexivity. }
  split; [exact H1|]. split; [exact H2|].
  pose proof (handleUpdate_requires_target_and_title
                (serving [todoA; todoB] true) alice editing (lit "1") [] H1)
    as Ha.
  pose proof (handleUpdate_requires_target_and_title
                (serving [todoA; todoB] true) alice editing_blank (lit "1")
                [] H2) as Hb.
  cbv zeta in Ha, Hb.
  destruct Ha as (_ & Hid & _). destruct Hb as (_ & _ & _ & _ & Hb).
  split; [exact Hid|]. apply Hb. reflexivity.
Defined.

(** The store has a row ["9"] that the list lacks: updating, toggling and
    deleting it succeed and the list stays as it is. *)
Lemma absent_row_nine :
  ~ In (lit "9") (ids (todos editing))
  /\ update_answer (serving [todoA; todoB; todoC] true) (lit "9")
       (edit_fields (serving [todoA; todoB; todoC] true) editing)
     = Success {| Todo.id := lit "9"; Todo.title := lit "A2";
                  Todo.description := Some (lit "more");
                  Todo.completed := false;
                  Todo.created_at := stamp0; Todo.updated_at := stamp1 |}
  /\ todos (fst (invoke (fun c => handleUpdate
                                    (serving [todoA; todoB; todoC] true)
                                    c (lit "9")) editing))
     = [todoA; todoB]
  /\ todos (fst (invoke (fun c => handleToggleComplete
                                    (serving [todoA; todoB; todoC] true)
                                    c (lit "9") false) editing))
     = [todoA; todoB]
  /\ todos (fst (invoke (fun c => handleDelete
                                    (serving [todoA; todoB; todoC] true)
                                    c (lit "9")) editing))
     = [todoA; todoB].
Proof.
  assert (Habs : ~ In (lit "9") (ids (todos editing))).
  { vm_compute. intuition discriminate. }
  split; [exact Habs|]. split; [reflexivity|].
  destruct (absent_id_leaves_list (serving [todoA; todoB; todoC] true)
              editing (lit "9") Habs) as (_ & _ & _ & Hu & Ht & Hd).
  split; [exact Hu|]. split; [exact (Ht false)|exact Hd].
Defined.

(** No session: redirected to [/login]. *)
Lemma dashboard_without_session :
  Dashboard.getUser_answer no_session = None
  /\ Dashboard.run no_session
     = (Dashboard.Redirected (lit "/login"),
        [Dashboard.CreateClient; Dashboard.GetUser;
         Dashboard.Redirect (lit "/login")])
  /\ existsb Dashboard.is_store_query (snd (Dashboard.run no_session))
     = false.
Proof.
  split; [reflexivity|].
  exact (DashboardPage_unauthenticated no_session eq_refl).
Defined.

(** The select is refused: the page is rendered with an empty list. *)
Lemma dashboard_select_refused :
  Dashboard.getUser_answer select_refused = Some alice
  /\ (exists page,
        fst (Dashboard.run select_refused) = Dashboard.Value page
        /\ Dashboard.initialTodos (Dashboard.list_component page) = []
        /\ Dashboard.user (Dashboard.list_component page) = alice)
  /\ snd (Dashboard.run select_refused)
     = [Dashboard.CreateClient; Dashboard.GetUser;
        Dashboard.StoreSelect (Dashboard.todos_of alice);
        Dashboard.ConsoleError (lit "Error fetching todos:") denied].
Proof.
  split; [reflexivity|].
  destruct (DashboardPage_select_failure select_refused alice denied
              eq_refl eq_refl) as (Hrun & _ & _).
  rewrite Hrun. split; [|reflexivity].
  eexists. split; [reflexivity|]. split; reflexivity.
Defined.

(** [?code=&type=signup]: the [code] parameter is present, with the empty
    value, and no exchange is attempted. *)
Lemma GET_empty_code_no_exchange :
  Callback.get (Callback.searchParams empty_code) (lit "code") = Some []
  /\ Callback.exchange_attempted
       (snd (Callback.GET (fun _ => Callback.Session) empty_code)) = false
  /\ fst (Callback.GET (fun _ => Callback.Session) empty_code)
     = Callback.redirect (site ++ lit "/dashboard").
Proof. repeat split; reflexivity. Qed.

(** [?code=abc&type=recovery]: the code is exchanged, and the browser is
    sent to the reset-password page whatever the exchange answers. *)
Lemma GET_recovery :
  fst (Callback.GET (fun _ => Callback.AuthError) recovery)
  = Callback.redirect (site ++ lit "/reset-password")
  /\ snd (Callback.GET (fun _ => Callback.AuthError) recovery)
     = [Callback.CreateClient; Callback.ExchangeCodeForSession (lit "abc")].
Proof.
  destruct (GET_redirects (fun _ => Callback.AuthError) recovery)
    as (Hr & _ & _ & Hx & _).
  split; [apply Hr; reflexivity|].
  apply (Hx (lit "abc")); [reflexivity|vm_compute; discriminate].
Defined.

End Instances.

(** * Further properties *)

(** ** What [trim] leaves *)

Section TrimFacts.
Import JS.

Lemma trimStart_head (s : jsstring) (c : N) (r : jsstring) :
  trimStart s = c :: r -> isWhiteSpace c = false.
Proof.
  induction s as [|a s IH]; simpl; [discriminate|].
  destruct (isWhiteSpace a) eqn:E; [exact IH|].
  intros [= <- _]. exact E.
Qed.

Lemma trimStart_fixed (s : jsstring) :
  (forall c r, s = c :: r -> isWhiteSpace c = false) -> trimStart s = s.
Proof.
  destruct s as [|a s]; simpl; [reflexivity|].
  intros H. now rewrite (H a s eq_refl).
Qed.

Lemma trimStart_snoc (l : jsstring) (c : N) :
  isWhiteSpace c = false -> exists l', trimStart (l ++ [c]) = l' ++ [c].
Proof.
  intros Hc. induction l as [|a l IH]; simpl.
  - rewrite Hc. now exists [].
  - destruct (isWhiteSpace a); [exact IH|]. now exists (a :: l).
Qed.

Lemma trim_head (s : jsstring) (c : N) (r : jsstring) :
  trim s = c :: r -> isWhiteSpace c = false.
Proof.
  unfold trim, trimEnd. destruct (trimStart s) as [|a u] eqn:E.
  - discriminate.
  - pose proof (trimStart_head s a u E) as Ha. simpl.
    destruct (trimStart_snoc (rev u) a Ha) as [l' ->].
    rewrite rev_app_distr. simpl. now intros [= <- _].
Qed.

Lemma trim_last (s : jsstring) (c : N) (i : jsstring) :
  trim s = i ++ [c] -> isWhiteSpace c = false.
Proof.
  unfold trim, trimEnd. intros H. apply (f_equal (@rev N)) in H.
  rewrite rev_involutive, rev_app_distr in H. simpl in H.
  exact (trimStart_head _ _ _ H).
Qed.

Lemma trim_fixed (s : jsstring) :
  (forall c r, s = c :: r -> isWhiteSpace c = false) ->
  (forall c i, s = i ++ [c] -> isWhiteSpace c = false) ->
  trim s = s.
Proof.
  intros Hh Hl. unfold trim, trimEnd. rewrite (trimStart_fixed s Hh).
  rewrite trimStart_fixed; [apply rev_involutive|].
  intros c r Hr. apply (Hl c (rev r)).
  rewrite <- (rev_involutive s), Hr. reflexivity.
Qed.

Lemma trim_idempotent (s : jsstring) : trim (trim s) = trim s.
Proof.
  apply trim_fixed.
  - intros c r. apply trim_head.
  - intros c i. apply trim_last.
Qed.

(** [s.trim() || null] is [null] or a non-empty string that trimming
    leaves alone. *)
Lemma or_null_trim_clean (s d : jsstring) :
  or_null (trim s) = Some d -> d <> [] /\ trim d = d.
Proof.
  unfold or_null. destruct (truthy (trim s)) eqn:E; [|discriminate].
  intros [= <-]. split; [now apply truthy_true|apply trim_idempotent].
Qed.

End TrimFacts.

(** ** The handlers, whatever the store answers *)

Section HandlerRuns.
Import JS Supabase TodoList.

Variable env : Env.
Variable user : User.

Lemma handleCreate_run (s : State) :
  invoke (handleCreate env user) s
  = if truthy (trim (title s)) then
      match insert_answer env (create_row user s) with
      | Success data =>
          ({| todos := data :: todos s;
              title := [];
              description := [];
              editingId := editingId s;
              editTitle := editTitle s;
              editDescription := editDescription s;
              loading := false |},
           [PreventDefault; StoreInsert (create_row user s)])
      | Failure error =>
          (idle s,
           [PreventDefault; StoreInsert (create_row user s);
            ConsoleError (lit "Error creating todo:") error;
            Alert (lit "Error creating todo: " ++ message error)])
      end
    else (s, [PreventDefault]).
Proof.
  unfold invoke, handleCreate, bind, perform, return_, pure, store_insert,
    setLoading, setTodos, setTitle, setDescription, modify, create_row, idle.
  cbn [app negb].
  destruct (truthy (trim (title s))); cbn [negb]; [|reflexivity].
  destruct (insert_answer env _); reflexivity.
Qed.

Lemma handleUpdate_run (s : State) (i : jsstring) :
  invoke (fun c => handleUpdate env c i) s
  = if truthy (trim (editTitle s)) then
      match update_answer env i (edit_fields env s) with
      | Success data =>
          ({| todos := replace_by_id i data (todos s);
              title := title s;
              description := description s;
              editingId := None;
              editTitle := [];
              editDescription := [];
              loading := false |},
           [StoreUpdate i (edit_fields env s)])
      | Failure error =>
          (idle s,
           [StoreUpdate i (edit_fields env s);
            ConsoleError (lit "Error updating todo:") error;
            Alert (lit "Error updating todo: " ++ message error)])
      end
    else (s, []).
Proof.
  destruct (truthy (trim (editTitle s))) eqn:E.
  - apply handleUpdate_answered. now apply truthy_true.
  - apply handleUpdate_blank_title. now apply truthy_false.
Qed.

(** X1.  When the store refuses the insert, create changes no cell but
    the busy flag, which it leaves down: the list is what it was and the
    title and description typed stay in the form.  The error is logged and
    then alerted with its message. *)
Theorem handleCreate_failure (s : State) (error : PostgrestError) :
  trim (title s) <> [] ->
  insert_answer env (create_row user s) = Failure error ->
  invoke (handleCreate env user) s
  = (idle s,
     [PreventDefault; StoreInsert (create_row user s);
      ConsoleError (lit "Error creating todo:") error;
      Alert (lit "Error creating todo: " ++ message error)])
  /\ todos (fst (invoke (handleCreate env user) s)) = todos s
  /\ title (fst (invoke (handleCreate env user) s)) = title s
  /\ description (fst (invoke (handleCreate env user) s)) = description s.
Proof.
  intros Ht Hans. rewrite handleCreate_run, (proj2 (truthy_true _) Ht), Hans.
  repeat split; reflexivity.
Qed.

(** X2.  Whatever row create sends to the store, its title is not empty
    and has no blank at either end, its description is [null] or a
    non-empty string with no blank at either end, it is not completed, and
    it belongs to the current user. *)
Theorem handleCreate_row_is_clean (s : State) (row : InsertRow) :
  In (StoreInsert row) (snd (invoke (handleCreate env user) s)) ->
  ins_title row <> []
  /\ (forall c r, ins_title row = c :: r -> isWhiteSpace c = false)
  /\ (forall c i, ins_title row = i ++ [c] -> isWhiteSpace c = false)
  /\ (forall d, ins_description row = Some d ->
        d <> []
        /\ (forall c r, d = c :: r -> isWhiteSpace c = false)
        /\ (forall c i, d = i ++ [c] -> isWhiteSpace c = false))
  /\ ins_completed row = false
  /\ ins_user_id row = user_id user.
Proof.
  rewrite handleCreate_run.
  destruct (truthy (trim (title s))) eqn:E.
  - intros H. assert (row = create_row user s) as ->.
    { destruct (insert_answer env _); simpl in H;
        repeat (destruct H as [H|H];
                [first [discriminate H | now injection H]|]);
        destruct H. }
    unfold create_row; cbn [ins_title ins_description ins_completed
                              ins_user_id].
    split; [now apply truthy_true|].
    split; [intros c r; apply trim_head|].
    split; [intros c i; apply trim_last|].
    split; [|split; reflexivity].
    intros d Hd. unfold or_null in Hd.
    destruct (truthy (trim (description s))) eqn:Ed; [|discriminate Hd].
    injection Hd as <-. split; [now apply truthy_true|].
    split; [intros c r; apply trim_head|intros c i; apply trim_last].
  - simpl. intros [H|[]]. discriminate H.
Qed.

(** X3.  Whatever request an edit sends to the store, it is for the given
    id, its title is not empty and has no blank at either end, its
    description is [null] or non-empty without a blank at either end, it
    stamps [updated_at] with the clock, and it leaves the [completed]
    column out: a store that applies the request keeps the record's id,
    completion flag and creation time. *)
Theorem handleUpdate_request_is_clean
    (s : State) (i j : jsstring) (fields : UpdateFields) :
  In (StoreUpdate j fields) (snd (invoke (fun c => handleUpdate env c i) s)) ->
  j = i
  /\ (exists t, upd_title fields = Some t /\ t <> [] /\ trim t = t)
  /\ (exists d, upd_description fields = Some d
        /\ forall d', d = Some d' -> d' <> [] /\ trim d' = d')
  /\ upd_updated_at fields = Some (now env)
  /\ upd_completed fields = None
  /\ (forall row,
        Todo.id (store_applies fields row) = Todo.id row
        /\ Todo.completed (store_applies fields row) = Todo.completed row
        /\ Todo.created_at (store_applies fields row) = Todo.created_at row).
Proof.
  rewrite handleUpdate_run.
  destruct (truthy (trim (editTitle s))) eqn:E; [|intros []].
  intros H.
  assert (j = i /\ fields = edit_fields env s) as [-> ->].
  { destruct (update_answer env i _); simpl in H.
    - destruct H as [H|[]]. now injection H.
    - destruct H as [H|[H|[H|[]]]]; try discriminate H. now injection H. }
  unfold edit_fields;
    cbn [upd_title upd_description upd_completed upd_updated_at].
  split; [reflexivity|]. split.
  { eexists. split; [reflexivity|].
    split; [now apply truthy_true|apply trim_idempotent]. }
  split.
  { eexists. split; [reflexivity|]. intros d'. apply or_null_trim_clean. }
  repeat split; reflexivity.
Qed.

(** X4.  One user event makes at most one call of the Record Store and
    raises at most one alert; typing in a field, starting an edit and
    cancelling it do nothing outside the component at all. *)
Theorem fire_one_store_call
    (cb : Callback) (value : jsstring) (s : State) :
  (length (List.filter is_store_call (snd (fire env user cb value s))) <= 1)%nat
  /\ (length (List.filter is_alert (snd (fire env user cb value s))) <= 1)%nat
  /\ (match cb with
      | Submit_handleCreate | Click_handleUpdate _ | Click_handleDelete _
      | Change_handleToggleComplete _ _ => True
      | _ => snd (fire env user cb value s) = []
      end).
Proof.
  destruct cb; cbn [fire];
    rewrite ?handleCreate_run, ?handleUpdate_run,
      ?handleToggleComplete_answered, ?handleDelete_answered;
    repeat match goal with
           | |- context [if ?b then _ else _] => destruct b
           | |- context [match ?a with Success _ => _ | Failure _ => _ end] =>
               destruct a
           | |- context [match ?a with Some _ => _ | None => _ end] =>
               destruct a
           end;
    cbn; repeat split; lia.
Qed.

End HandlerRuns.

(** ** What the render offers *)

Section RenderFacts.
Import JS Supabase TodoList.

Lemma offered_by_row (s : State) (todo : Todo) (cb : Callback) :
  In todo (todos s) ->
  In (mkControl cb false) (render_todo s todo) ->
  offered s cb.
Proof.
  intros Hin Hc. unfold offered, render. apply List.in_app_iff. right.
  destruct (todos s) as [|a l] eqn:E; [destruct Hin|].
  cbn [length Nat.eqb]. apply List.in_flat_map. eauto.
Qed.


Lemma offered_startEdit (s : State) (todo : Todo) :
  offered s (Click_startEdit todo) ->
  In todo (todos s) /\ editingId s <> Some (Todo.id todo).
Proof.
  intros H. destruct (offered_todo s _ H) as [Hform|(todo' & Hin & Hc)].
  - simpl in Hform. destruct Hform as [E|[E|[E|[]]]]; discriminate E.
  - unfold render_todo in Hc.
    destruct (nullable_eq (editingId s) (Todo.id todo')) eqn:E; simpl in Hc.
    + destruct Hc as [Hc|[Hc|[Hc|[Hc|[]]]]]; discriminate Hc.
    + destruct Hc as [Hc|[Hc|[Hc|[]]]]; try discriminate Hc.
      injection Hc as <- _. split; [exact Hin|].
      intros Hid. apply nullable_eq_true in Hid. congruence.
Qed.

(** X5.  While the busy flag is up the render offers nothing: no handler
    and no setter can be started before the running handler has put the
    flag down. *)
Theorem busy_offers_nothing (s : State) (cb : Callback) :
  loading s = true -> ~ offered s cb.
Proof.
  intros Hbusy Hoff. apply offered_idle in Hoff. congruence.
Qed.

(** X6.  A record shows either its edit controls or its view controls,
    never both, and only one id can be saved: when Save is offered for
    [i], it is offered for no other id, and neither the checkbox, nor
    Edit, nor Delete is offered for a record whose id is [i]. *)
Theorem edit_row_has_no_view_controls (s : State) (i : jsstring) :
  offered s (Click_handleUpdate i) ->
  (forall j, offered s (Click_handleUpdate j) -> j = i)
  /\ (forall b, ~ offered s (Change_handleToggleComplete i b))
  /\ ~ offered s (Click_handleDelete i)
  /\ (forall todo, Todo.id todo = i -> ~ offered s (Click_startEdit todo)).
Proof.
  intros H. destruct (offered_handleUpdate s i H) as (Hid & _ & _).
  split; [|split; [|split]].
  - intros j Hj. destruct (offered_handleUpdate s j Hj) as (Hjd & _ & _).
    congruence.
  - intros b Hb.
    destruct (offered_handleToggleComplete s i b Hb) as (k & t & _ & _ & _ & Hne).
    contradiction.
  - intros Hd. destruct (offered_todo s _ Hd) as [Hform|(todo & Hin & Hc)].
    + simpl in Hform. destruct Hform as [E|[E|[E|[]]]]; discriminate E.
    + unfold render_todo in Hc.
      destruct (nullable_eq (editingId s) (Todo.id todo)) eqn:E; simpl in Hc.
      * destruct Hc as [Hc|[Hc|[Hc|[Hc|[]]]]]; discriminate Hc.
      * destruct Hc as [Hc|[Hc|[Hc|[]]]]; try discriminate Hc.
        injection Hc as Heq _. rewrite Heq, Hid in E.
        simpl in E. apply str_eq_false in E. contradiction.
  - intros todo <- Hs. destruct (offered_startEdit s todo Hs) as [_ Hne].
    contradiction.
Qed.

(** X7.  With the busy flag down every record of the list can be acted
    on: the record being edited offers its two inputs, Save with its id
    and Cancel; any other record offers the checkbox with its id and its
    own [completed], Edit with the record itself, and Delete with its id.
    The create form is offered as well. *)
Theorem idle_row_offers_its_controls (s : State) (k : nat) (t : Todo) :
  loading s = false ->
  todos s !! k = Some t ->
  offered s Submit_handleCreate
  /\ offered s Change_setTitle
  /\ offered s Change_setDescription
  /\ (editingId s = Some (Todo.id t) ->
      offered s Change_setEditTitle
      /\ offered s Change_setEditDescription
      /\ offered s (Click_handleUpdate (Todo.id t))
      /\ offered s Click_cancelEdit)
  /\ (editingId s <> Some (Todo.id t) ->
      offered s (Change_handleToggleComplete (Todo.id t) (Todo.completed t))
      /\ offered s (Click_startEdit t)
      /\ offered s (Click_handleDelete (Todo.id t))).
Proof.
  intros Hidle Hk.
  assert (Hin : In t (todos s)).
  { apply list_elem_of_In. eapply list_elem_of_lookup_2, Hk. }
  assert (Hform : forall cb,
             In cb [Change_setTitle; Change_setDescription;
                    Submit_handleCreate] -> offered s cb).
  { intros cb Hcb. unfold offered, render. apply List.in_app_iff. left.
    rewrite Hidle. simpl in Hcb. simpl.
    destruct Hcb as [<-|[<-|[<-|[]]]]; auto. }
  split; [apply Hform; simpl; auto|].
  split; [apply Hform; simpl; auto|].
  split; [apply Hform; simpl; auto|].
  split.
  - intros He. apply nullable_eq_true in He.
    repeat split; apply (offered_by_row s t _ Hin);
      unfold render_todo; rewrite He, Hidle; simpl; auto.
  - intros He.
    assert (E : nullable_eq (editingId s) (Todo.id t) = false).
    { destruct (nullable_eq (editingId s) (Todo.id t)) eqn:E; [|reflexivity].
      apply nullable_eq_true in E. contradiction. }
    repeat split; apply (offered_by_row s t _ Hin);
      unfold render_todo; rewrite E, Hidle; simpl; auto.
Qed.

End RenderFacts.

(** ** Sequences of events *)

Section Sessions.
Import JS Supabase TodoList.

Lemma ids_replace_by_id (i : jsstring) (data : Todo) (l : list Todo) :
  Todo.id data = i -> ids (replace_by_id i data l) = ids l.
Proof.
  intros Hd. induction l as [|a l IH]; simpl; [reflexivity|].
  f_equal; [|exact IH].
  destruct (str_eq (Todo.id a) i) eqn:E; [|reflexivity].
  apply str_eq_true in E. congruence.
Qed.


Lemma ids_remove_by_id (i e : jsstring) (l : list Todo) :
  In e (ids (remove_by_id i l)) <-> In e (ids l) /\ e <> i.
Proof.
  induction l as [|a l IH]; simpl; [tauto|].
  destruct (str_eq (Todo.id a) i) eqn:E; simpl; rewrite IH.
  - apply str_eq_true in E. split; [tauto|].
    intros [[Ha|Hl] Hne]; [congruence|tauto].
  - apply str_eq_false in E. split; [|tauto].
    intros [Ha|[Hl Hne]]; [split; [tauto|congruence]|tauto].
Qed.

Lemma NoDup_remove_by_id (i : jsstring) (l : list Todo) :
  List.NoDup (ids l) -> List.NoDup (ids (remove_by_id i l)).
Proof.
  induction l as [|a l IH]; simpl; [auto|].
  intros Hnd. inversion Hnd as [|? ? Hnotin Hnd']; subst.
  destruct (str_eq (Todo.id a) i); simpl; [auto|].
  constructor; [|auto]. rewrite ids_remove_by_id. tauto.
Qed.






(** X9.  Cancel discards an edit: from a state in which nothing is being
    edited, starting the edit of a record, typing a new title and a new
    description and then cancelling gives back the very same state, with
    no call, log or alert on the way. *)
Theorem cancelEdit_discards_edit
    (env : Env) (user : User) (s : State) (todo : Todo)
    (typedTitle typedDescription v1 v2 : jsstring) :
  edit_cleared s ->
  let r1 := fire env user (Click_startEdit todo) v1 s in
  let r2 := fire env user Change_setEditTitle typedTitle (fst r1) in
  let r3 := fire env user Change_setEditDescription typedDescription (fst r2) in
  let r4 := fire env user Click_cancelEdit v2 (fst r3) in
  fst r4 = s
  /\ snd r1 ++ snd r2 ++ snd r3 ++ snd r4 = []
  /\ todos (fst r3) = todos s
  /\ editingId (fst r3) = Some (Todo.id todo)
  /\ editTitle (fst r3) = typedTitle
  /\ editDescription (fst r3) = typedDescription.
Proof.
  intros (He & Ht & Hd). destruct s; cbn in *. subst.
  repeat split; reflexivity.
Qed.

(** X10.  When the store answers an update with a record of the id it was
    asked for, neither an edit nor a toggle changes which ids the list
    holds, nor their order. *)
Theorem update_keeps_ids (env : Env) (s : State) (i : jsstring) :
  keeps_id env ->
  ids (todos (fst (invoke (fun c => handleUpdate env c i) s))) = ids (todos s)
  /\ (forall b,
        ids (todos (fst (invoke (fun c => handleToggleComplete env c i b) s)))
        = ids (todos s)).
Proof.
  intros Hk. split.
  - rewrite handleUpdate_run. destruct (truthy (trim (editTitle s)));
      [|reflexivity].
    destruct (update_answer env i _) as [d|e] eqn:E; cbn; [|reflexivity].
    apply ids_replace_by_id. exact (Hk _ _ _ E).
  - intros b. rewrite handleToggleComplete_answered.
    destruct (update_answer env i _) as [d|e] eqn:E; cbn; [|reflexivity].
    apply ids_replace_by_id. exact (Hk _ _ _ E).
Qed.

(** X11.  Distinct ids stay distinct across any event, provided the store
    answers an update with a record of the requested id and an insert
    with a record whose id the list does not have yet. *)
Theorem fire_keeps_ids_distinct
    (env : Env) (user : User) (cb : Callback) (value : jsstring) (s : State) :
  keeps_id env ->
  (forall row data,
      insert_answer env row = Success data ->
      ~ In (Todo.id data) (ids (todos s))) ->
  List.NoDup (ids (todos s)) ->
  List.NoDup (ids (todos (fst (fire env user cb value s)))).
Proof.
  intros Hk Hfresh Hnd. destruct cb; cbn [fire]; try (cbn; exact Hnd).
  - rewrite handleCreate_run. destruct (truthy (trim (title s)));
      [|exact Hnd].
    destruct (insert_answer env _) as [d|e] eqn:E; cbn; [|exact Hnd].
    constructor; [exact (Hfresh _ _ E)|exact Hnd].
  - rewrite handleUpdate_run. destruct (truthy (trim (editTitle s)));
      [|exact Hnd].
    destruct (update_answer env i _) as [d|e] eqn:E; cbn; [|exact Hnd].
    rewrite ids_replace_by_id; [exact Hnd|exact (Hk _ _ _ E)].
  - rewrite handleToggleComplete_answered.
    destruct (update_answer env i _) as [d|e] eqn:E; cbn; [|exact Hnd].
    rewrite ids_replace_by_id; [exact Hnd|exact (Hk _ _ _ E)].
  - rewrite handleDelete_answered.
    destruct (confirm_answer env delete_question); [|exact Hnd].
    destruct (delete_answer env i); cbn; [exact Hnd|].
    now apply NoDup_remove_by_id.
Qed.

End Sessions.

(** ** Handlers in sequence *)

Section Compositions.
Import JS Supabase TodoList.

(** X12.  Creating a record and then deleting it by its id (confirmed,
    and accepted by the store) leaves the list without any record of that
    id; when the created record's id was new to the list, that is the
    list from before the create. *)
Theorem create_then_delete
    (env env' : Env) (user : User) (s : State) (data : Todo) :
  trim (title s) <> [] ->
  insert_answer env (create_row user s) = Success data ->
  confirm_answer env' delete_question = true ->
  delete_answer env' (Todo.id data) = None ->
  let s1 := fst (invoke (handleCreate env user) s) in
  let s2 := fst (invoke (fun c => handleDelete env' c (Todo.id data)) s1) in
  todos s2 = remove_by_id (Todo.id data) (todos s)
  /\ (~ In (Todo.id data) (ids (todos s)) -> todos s2 = todos s).
Proof.
  intros Ht Hins Hc Hd s1 s2. subst s2 s1.
  rewrite handleCreate_run, (proj2 (truthy_true _) Ht), Hins.
  rewrite handleDelete_answered, Hc, Hd. cbn [fst todos].
  assert (E : remove_by_id (Todo.id data) (data :: todos s)
              = remove_by_id (Todo.id data) (todos s)).
  { unfold remove_by_id. simpl.
    now rewrite (proj2 (str_eq_true _ _) eq_refl). }
  rewrite E. split; [reflexivity|]. apply remove_by_id_absent.
Qed.

(** X13.  Ticking a record's checkbox twice, with distinct ids and a store
    that applies each request to the record the list shows, gives back the
    record as it was but for [updated_at], which holds the time of the
    second request; every other record is untouched. *)
Theorem toggle_twice
    (env1 env2 : Env) (s : State) (k : nat) (t : Todo) :
  List.NoDup (ids (todos s)) ->
  todos s !! k = Some t ->
  let i := Todo.id t in
  let t1 := store_applies (toggle_fields env1 (Todo.completed t)) t in
  let s1 :=
    fst (invoke (fun c => handleToggleComplete env1 c i (Todo.completed t))
                s) in
  update_answer env1 i (toggle_fields env1 (Todo.completed t)) = Success t1 ->
  update_answer env2 i (toggle_fields env2 (Todo.completed t1))
  = Success (store_applies (toggle_fields env2 (Todo.completed t1)) t1) ->
  todos s1 !! k = Some t1
  /\ Todo.completed t1 = negb (Todo.completed t)
  /\ todos (fst (invoke (fun c => handleToggleComplete env2 c i
                                    (Todo.completed t1)) s1))
     = <[k := {| Todo.id := Todo.id t;
                 Todo.title := Todo.title t;
                 Todo.description := Todo.description t;
                 Todo.completed := Todo.completed t;
                 Todo.created_at := Todo.created_at t;
                 Todo.updated_at := now env2 |}]> (todos s).
Proof.
  intros Hnd Hk i t1 s1 H1 H2. subst s1.
  rewrite handleToggleComplete_answered, H1. cbn [fst todos].
  rewrite handleToggleComplete_answered, H2. cbn [fst todos].
  rewrite (replace_by_id_unique i t1 (todos s) k t Hnd Hk eq_refl).
  assert (Hlt : (k < length (todos s))%nat) by (eapply lookup_lt_Some, Hk).
  assert (Hk1 : <[k := t1]> (todos s) !! k = Some t1)
    by now apply list_lookup_insert_eq.
  split; [exact Hk1|]. split; [reflexivity|].
  rewrite (replace_by_id_unique i _ (<[k := t1]> (todos s)) k t1).
  - rewrite list_insert_insert_eq. f_equal. unfold t1, store_applies.
    cbn. now rewrite negb_involutive.
  - rewrite <- (replace_by_id_unique i t1 (todos s) k t Hnd Hk eq_refl).
    now rewrite ids_replace_by_id.
  - exact Hk1.
  - reflexivity.
Qed.

(** X14.  Edit followed at once by Save, with nothing typed.  A record
    whose title is blank cannot be saved this way: nothing is sent.
    Otherwise the request carries the record's title trimmed and its
    description trimmed, [null] when that is empty; with distinct ids and
    a store that applies the request, the record takes those two values and
    the clock's time, and the edit state is cleared. *)
Theorem startEdit_then_save
    (env : Env) (user : User) (s : State) (k : nat) (t : Todo)
    (v : jsstring) :
  List.NoDup (ids (todos s)) ->
  todos s !! k = Some t ->
  let s1 := fst (fire env user (Click_startEdit t) v s) in
  let run := invoke (fun c => handleUpdate env c (Todo.id t)) s1 in
  let sent :=
    {| upd_title := Some (trim (Todo.title t));
       upd_description :=
         Some (or_null (trim (or_empty (Todo.description t))));
       upd_completed := None;
       upd_updated_at := Some (now env) |} in
  (trim (Todo.title t) = [] -> run = (s1, []))
  /\ (trim (Todo.title t) <> [] ->
      update_answer env (Todo.id t) sent = Success (store_applies sent t) ->
      snd run = [StoreUpdate (Todo.id t) sent]
      /\ todos (fst run)
         = <[k := {| Todo.id := Todo.id t;
                     Todo.title := trim (Todo.title t);
                     Todo.description :=
                       or_null (trim (or_empty (Todo.description t)));
                     Todo.completed := Todo.completed t;
                     Todo.created_at := Todo.created_at t;
                     Todo.updated_at := now env |}]> (todos s)
      /\ edit_cleared (fst run)).
Proof.
  intros Hnd Hk s1 run sent. subst run.
  assert (Hs1 : editTitle s1 = Todo.title t
                /\ editDescription s1 = or_empty (Todo.description t)
                /\ todos s1 = todos s) by (repeat split; reflexivity).
  destruct Hs1 as (Het & Hed & Htd).
  assert (Hsent : edit_fields env s1 = sent).
  { unfold edit_fields, sent. now rewrite Het, Hed. }
  split.
  - intros Hb. apply handleUpdate_blank_title. now rewrite Het.
  - intros Hnb Hans. rewrite handleUpdate_answered by now rewrite Het.
    rewrite Hsent, Hans. cbn [fst snd todos]. rewrite Htd.
    split; [reflexivity|]. split.
    + now rewrite (replace_by_id_unique _ _ (todos s) k t Hnd Hk eq_refl).
    + unfold edit_cleared. cbn. auto.
Qed.

End Compositions.

(** ** The loader and the callback, further *)

Section LoaderFacts.
Import JS Supabase Dashboard.

Variable env : Env.

Lemma DashboardPage_run :
  run env
  = match getUser_answer env with
    | None =>
        (Redirected (lit "/login"),
         [CreateClient; GetUser; Redirect (lit "/login")])
    | Some u =>
        (Value {| heading := lit "Dashboard";
                  welcome := email u;
                  signout_action := lit "/auth/signout";
                  signout_method := lit "post";
                  list_component :=
                    {| initialTodos :=
                         match select_answer env (todos_of u) with
                         | Success rows => rows
                         | Failure _ => []
                         end;
                       user := u |} |},
         [CreateClient; GetUser; StoreSelect (todos_of u)]
         ++ match select_answer env (todos_of u) with
            | Success _ => []
            | Failure error =>
                [ConsoleError (lit "Error fetching todos:") error]
            end)
    end.
Proof.
  unfold run, DashboardPage, bind, perform, auth_getUser, store_select,
    redirect, pure. cbn [app].
  destruct (getUser_answer env) as [u|]; [|reflexivity].
  fold (todos_of u). destruct (select_answer env (todos_of u)); reflexivity.
Qed.

(** X15.  The loader redirects exactly when there is no current user,
    and then to [/login]; it queries the Record Store exactly when there is
    one, once, and only for rows whose [user_id] is that user's id.  When
    it renders, the list component receives that user and exactly the rows
    the store returned, in the store's order, or no rows when the select
    failed; the error is logged only in that case. *)
Theorem DashboardPage_gate :
  (fst (run env) = Redirected (lit "/login") <-> getUser_answer env = None)
  /\ (forall path, fst (run env) = Redirected path -> path = lit "/login")
  /\ (existsb is_store_query (snd (run env)) = true
      <-> exists u, getUser_answer env = Some u)
  /\ (length (List.filter is_store_query (snd (run env))) <= 1)%nat
  /\ (forall q, In (StoreSelect q) (snd (run env)) ->
        exists u, getUser_answer env = Some u
                  /\ eq_column q = lit "user_id" /\ eq_value q = user_id u)
  /\ (forall page, fst (run env) = Value page ->
        exists u,
          getUser_answer env = Some u
          /\ user (list_component page) = u
          /\ initialTodos (list_component page)
             = match select_answer env (todos_of u) with
               | Success rows => rows
               | Failure _ => []
               end
          /\ ((exists label error, In (ConsoleError label error) (snd (run env)))
              <-> exists error,
                  select_answer env (todos_of u) = Failure error)).
Proof.
  rewrite DashboardPage_run.
  destruct (getUser_answer env) as [u|].
  - split; [split; discriminate|]. split; [intros path [=]|].
    split; [split; eauto|].
    destruct (select_answer env (todos_of u)) as [rows|e] eqn:Hsel; cbn;
      (split; [lia|]);
      (split; [|intros page [= <-]; exists u; rewrite Hsel; cbn]).
    + intros q [H|[H|[H|[]]]]; try discriminate H.
      injection H as <-. eauto.
    + repeat split; try reflexivity.
      * intros (l & e & [H|[H|[H|[]]]]); discriminate H.
      * intros [e [=]].
    + intros q [H|[H|[H|[H|[]]]]]; try discriminate H.
      injection H as <-. eauto.
    + split; [reflexivity|]. split; [reflexivity|]. split; [reflexivity|].
      split; [eauto|]. intros _.
      exists (lit "Error fetching todos:"), e. do 3 right. now left.
  - cbn. split; [tauto|]. split; [now intros path [= <-]|].
    split; [split; [discriminate|intros [u [=]]]|].
    split; [lia|].
    split; [intros q [H|[H|[H|[]]]]; discriminate H|].
    intros page [=].
Qed.

End LoaderFacts.

Section QueryFacts.
Import JS Callback.

Lemma get_first (p1 p2 : list (jsstring * jsstring)) (name v : jsstring) :
  (forall k w, In (k, w) p1 -> k <> name) ->
  get (p1 ++ (name, v) :: p2) name = Some v.
Proof.
  induction p1 as [|[k w] p1 IH]; simpl; intros H.
  - now rewrite (proj2 (str_eq_true _ _) eq_refl).
  - rewrite (proj2 (str_eq_false k name)) by (apply (H k w); now left).
    apply IH. intros k' w' Hin. apply (H k' w'). now right.
Qed.

(** X16.  When the query string repeats a parameter, the first occurrence
    decides: the redirect follows the first [type], and the code that is
    exchanged is the first [code]; later occurrences are ignored. *)
Theorem GET_first_occurrence_decides
    (ex : jsstring -> Exchange) (o : jsstring)
    (p1 p2 q1 q2 : list (jsstring * jsstring)) (ty c : jsstring) :
  (forall k w, In (k, w) p1 -> k <> lit "type") ->
  (forall k w, In (k, w) q1 -> k <> lit "code") ->
  fst (GET ex {| origin := o; searchParams := p1 ++ (lit "type", ty) :: p2 |})
  = (if bool_decide (ty = lit "recovery")
     then redirect (o ++ lit "/reset-password")
     else redirect (o ++ lit "/dashboard"))
  /\ (c <> [] ->
      snd (GET ex {| origin := o;
                     searchParams := q1 ++ (lit "code", c) :: q2 |})
      = [CreateClient; ExchangeCodeForSession c]).
Proof.
  intros Hp Hq. split.
  - rewrite GET_response. cbn [searchParams origin].
    now rewrite (get_first p1 p2 _ ty Hp).
  - intros Hc. rewrite GET_trace. cbn [searchParams].
    rewrite (get_first q1 q2 _ c Hq). apply truthy_true in Hc.
    now rewrite Hc.
Qed.

End QueryFacts.

(** ** Further worked instances *)

Section MoreInstances.
Import JS Supabase TodoList Samples.

Ltac distinct :=
  vm_compute;
  repeat (constructor; [intros H; simpl in H; intuition discriminate|]);
  constructor.

Lemma serving_keeps_id (rows : list Todo) (confirmed : bool) :
  keeps_id (serving rows confirmed).
Proof.
  intros i fields data. cbn [serving update_answer].
  destruct (List.find _ rows) as [r|] eqn:E; [|discriminate].
  intros [= <-]. apply List.find_some in E. destruct E as [_ E].
  now apply str_eq_true in E.
Qed.

(** The store refuses the insert of ["Buy milk"]: the form keeps what was
    typed. *)
Lemma create_refused :
  trim (title typing) <> []
  /\ todos (fst (invoke (handleCreate (refusing true) alice) typing))
     = [todoA; todoB]
  /\ title (fst (invoke (handleCreate (refusing true) alice) typing))
     = lit "  Buy milk ".
Proof.
  assert (Ht : trim (title typing) <> []) by (vm_compute; discriminate).
  split; [exact Ht|].
  destruct (handleCreate_failure (refusing true) alice typing denied
              Ht eq_refl) as (_ & Hl & Hti & _).
  split; [exact Hl|exact Hti].
Defined.

Lemma create_sends_buy_milk :
  In (StoreInsert (create_row alice typing))
     (snd (invoke (handleCreate (serving [todoA; todoB] true) alice) typing))
  /\ ins_title (create_row alice typing) <> []
  /\ ins_completed (create_row alice typing) = false.
Proof.
  assert (Hin : In (StoreInsert (create_row alice typing))
                  (snd (invoke (handleCreate (serving [todoA; todoB] true)
                                             alice) typing))).
  { right. left. reflexivity. }
  split; [exact Hin|].
  destruct (handleCreate_row_is_clean (serving [todoA; todoB] true) alice
              typing _ Hin) as (Hne & _ & _ & _ & Hc & _).
  split; [exact Hne|exact Hc].
Defined.

Lemma save_sends_A2 :
  In (StoreUpdate (lit "1") (edit_fields (serving [todoA; todoB] true) editing))
     (snd (invoke (fun c => handleUpdate (serving [todoA; todoB] true)
                                         c (lit "1")) editing))
  /\ upd_completed (edit_fields (serving [todoA; todoB] true) editing) = None
  /\ upd_updated_at (edit_fields (serving [todoA; todoB] true) editing)
     = Some stamp1.
Proof.
  assert (Hin : In (StoreUpdate (lit "1")
                      (edit_fields (serving [todoA; todoB] true) editing))
                  (snd (invoke (fun c => handleUpdate
                                           (serving [todoA; todoB] true)
                                           c (lit "1")) editing))).
  { left. reflexivity. }
  split; [exact Hin|].
  destruct (handleUpdate_request_is_clean (serving [todoA; todoB] true)
              editing _ _ _ Hin) as (_ & _ & _ & Hu & Hc & _).
  split; [exact Hc|exact Hu].
Defined.

Lemma saving_offers_no_submit :
  loading saving = true /\ (offered saving Submit_handleCreate -> False).
Proof.
  split; [reflexivity|].
  exact (busy_offers_nothing saving Submit_handleCreate eq_refl).
Defined.

Lemma editing_first_row_hides_its_delete :
  offered editing (Click_handleUpdate (lit "1"))
  /\ (offered editing (Click_handleDelete (lit "1")) -> False)
  /\ (offered editing (Change_handleToggleComplete (lit "1") false) -> False).
Proof.
  assert (H : offered editing (Click_handleUpdate (lit "1"))).
  { vm_compute. do 5 right. left. reflexivity. }
  split; [exact H|].
  destruct (edit_row_has_no_view_controls editing (lit "1") H)
    as (_ & Ht & Hd & _).
  split; [exact Hd|exact (Ht false)].
Defined.

Lemma second_row_offers_delete_while_first_is_edited :
  loading editing = false
  /\ todos editing !! 1%nat = Some todoB
  /\ offered editing (Click_handleDelete (lit "2"))
  /\ offered editing (Change_handleToggleComplete (lit "2") true).
Proof.
  split; [reflexivity|]. split; [reflexivity|].
  destruct (idle_row_offers_its_controls editing 1 todoB eq_refl eq_refl)
    as (_ & _ & _ & _ & Hview).
  destruct Hview as (Ht & _ & Hd); [vm_compute; discriminate|].
  split; [exact Hd|exact Ht].
Defined.


Lemma edit_then_cancel :
  edit_cleared at_rest
  /\ fst (fire (refusing true) alice Click_cancelEdit []
        (fst (fire (refusing true) alice Change_setEditDescription (lit "x")
           (fst (fire (refusing true) alice Change_setEditTitle (lit "A2")
              (fst (fire (refusing true) alice (Click_startEdit todoA) []
                         at_rest)))))))
     = at_rest.
Proof.
  assert (Hc : edit_cleared at_rest) by (repeat split; reflexivity).
  split; [exact Hc|].
  pose proof (cancelEdit_discards_edit (refusing true) alice at_rest todoA
                (lit "A2") (lit "x") [] [] Hc) as H.
  cbv zeta in H. exact (proj1 H).
Defined.

Lemma save_keeps_the_ids :
  keeps_id (serving [todoA; todoB] true)
  /\ ids (todos (fst (invoke (fun c => handleUpdate
                                         (serving [todoA; todoB] true)
                                         c (lit "1")) editing)))
     = [lit "1"; lit "2"].
Proof.
  pose proof (serving_keeps_id [todoA; todoB] true) as Hk.
  split; [exact Hk|].
  exact (proj1 (update_keeps_ids (serving [todoA; todoB] true) editing
                  (lit "1") Hk)).
Defined.

Lemma create_keeps_ids_distinct :
  List.NoDup (ids (todos typing))
  /\ List.NoDup
       (ids (todos (fst (fire (serving [todoA; todoB] true) alice
                              Submit_handleCreate [] typing)))).
Proof.
  assert (Hnd : List.NoDup (ids (todos typing))) by distinct.
  split; [exact Hnd|].
  apply fire_keeps_ids_distinct; [apply serving_keeps_id| |exact Hnd].
  intros row data [= <-]. vm_compute. intuition discriminate.
Defined.

Lemma create_then_delete_milk :
  trim (title typing) <> []
  /\ todos (fst (invoke (fun c => handleDelete (serving [todoA; todoB] true)
                                               c (lit "3"))
                        (fst (invoke (handleCreate
                                        (serving [todoA; todoB] true) alice)
                                     typing))))
     = [todoA; todoB].
Proof.
  assert (Ht : trim (title typing) <> []) by (vm_compute; discriminate).
  split; [exact Ht|].
  pose proof (create_then_delete (serving [todoA; todoB] true)
                (serving [todoA; todoB] true) alice typing milk
                Ht eq_refl eq_refl eq_refl) as H.
  cbv zeta in H. destruct H as [_ H]. apply H.
  vm_compute. intuition discriminate.
Defined.

Lemma tick_and_untick :
  List.NoDup (ids (todos scenario))
  /\ todos scenario !! 0%nat = Some todoA
  /\ todos (fst (invoke (fun c => handleToggleComplete
                                    (serving [todoA_done] true)
                                    c (lit "1") true)
                        (fst (invoke (fun c => handleToggleComplete
                                                 (serving [todoA] true)
                                                 c (lit "1") false)
                                     scenario))))
     = [todoA_again].
Proof.
  assert (Hnd : List.NoDup (ids (todos scenario))) by distinct.
  split; [exact Hnd|]. split; [reflexivity|].
  pose proof (toggle_twice (serving [todoA] true) (serving [todoA_done] true)
                scenario 0 todoA Hnd eq_refl) as H.
  cbv zeta in H. destruct (H eq_refl eq_refl) as (_ & _ & Hl). exact Hl.
Defined.

Lemma edit_second_row_and_save :
  List.NoDup (ids (todos at_rest))
  /\ todos at_rest !! 1%nat = Some todoB
  /\ todos (fst (invoke (fun c => handleUpdate (serving [todoA; todoB] true)
                                               c (lit "2"))
                        (fst (fire (serving [todoA; todoB] true) alice
                                   (Click_startEdit todoB) [] at_rest))))
     = [todoA; todoB_resaved].
Proof.
  assert (Hnd : List.NoDup (ids (todos at_rest))) by distinct.
  split; [exact Hnd|]. split; [reflexivity|].
  pose proof (startEdit_then_save (serving [todoA; todoB] true) alice at_rest
                1 todoB [] Hnd eq_refl) as H.
  cbv zeta in H. destruct H as [_ H].
  destruct H as (_ & Hl & _); [vm_compute; discriminate|reflexivity|].
  exact Hl.
Defined.

(** [?type=recovery&type=signup&code=abc&code=xyz] *)
Lemma first_type_and_code_win :
  fst (Callback.GET (fun _ => Callback.Session)
         {| Callback.origin := site;
            Callback.searchParams :=
              [(lit "type", lit "recovery"); (lit "type", lit "signup")] |})
  = Callback.redirect (site ++ lit "/reset-password")
  /\ snd (Callback.GET (fun _ => Callback.Session)
            {| Callback.origin := site;
               Callback.searchParams :=
                 [(lit "type", lit "signup"); (lit "code", lit "abc");
                  (lit "code", lit "xyz")] |})
     = [Callback.CreateClient; Callback.ExchangeCodeForSession (lit "abc")].
Proof.
  destruct (GET_first_occurrence_decides (fun _ => Callback.Session) site
              [] [(lit "type", lit "signup")]
              [(lit "type", lit "signup")] [(lit "code", lit "xyz")]
              (lit "recovery") (lit "abc")) as [Hr Hx].
  - intros k w [].
  - intros k w [[= <- _]|[]]. vm_compute. discriminate.
  - split; [exact Hr|]. apply Hx. vm_compute. discriminate.
Defined.

End MoreInstances.
